(** * Buddly-AI relay: a shallow embedding of the Express relay service
      (server file, [extractAndParseJson], [processGenerativeRequest] and the
      three POST handlers) and of the browser helper [apiService.js].

    JavaScript values are an inductive type, strings are sequences of UTF-16
    code units, exceptions and the mutable world (console, outbound HTTP
    calls, the Express [res] object) are threaded by a small state-and-error
    monad.  Built-ins whose behaviour is fixed by the language runtime and not
    by this repository ([JSON.parse], [JSON.stringify], [Number::toString])
    are section variables. *)

From Stdlib Require Import ZArith NArith List Bool String Ascii Lia Floats.
From Stdlib Require Import DecimalString.
Import ListNotations.

Set Warnings "-register-all,-inexact-float".

(* ------------------------------------------------------------------ *)
(** ** JavaScript strings *)

Definition code_unit := N.
Definition jsstring := list code_unit.

(** An ASCII literal of the source as a code-unit sequence. *)
Definition lit (s : string) : jsstring :=
  map N_of_ascii (list_ascii_of_string s).

Definition lbrace : code_unit := 123%N.
Definition rbrace : code_unit := 125%N.
Definition dquote : jsstring := [34%N].

Fixpoint jsstring_eqb (a b : jsstring) : bool :=
  match a, b with
  | [], [] => true
  | x :: a', y :: b' => N.eqb x y && jsstring_eqb a' b'
  | _, _ => false
  end.

(** [String.prototype.indexOf] with a search string of one code unit. *)
Fixpoint indexOf_from (c : code_unit) (s : jsstring) (i : Z) : Z :=
  match s with
  | [] => (-1)%Z
  | x :: s' => if N.eqb x c then i else indexOf_from c s' (i + 1)%Z
  end.

Definition indexOf (s : jsstring) (c : code_unit) : Z := indexOf_from c s 0%Z.

(** [String.prototype.lastIndexOf] with a search string of one code unit. *)
Fixpoint lastIndexOf_from (c : code_unit) (s : jsstring) (i best : Z) : Z :=
  match s with
  | [] => best
  | x :: s' => lastIndexOf_from c s' (i + 1)%Z (if N.eqb x c then i else best)
  end.

Definition lastIndexOf (s : jsstring) (c : code_unit) : Z :=
  lastIndexOf_from c s 0%Z (-1)%Z.

(** [String.prototype.substring(a, b)]: both arguments are clamped to
    [0, length] and swapped when [a > b]. *)
Definition substring (s : jsstring) (a b : Z) : jsstring :=
  let len := Z.of_nat (List.length s) in
  let a' := Z.min (Z.max a 0) len in
  let b' := Z.min (Z.max b 0) len in
  let from := Z.min a' b' in
  let to := Z.max a' b' in
  firstn (Z.to_nat (to - from)) (skipn (Z.to_nat from) s).

(** [slice(a, b)] on a sequence: a negative argument counts from the end,
    nothing is swapped. *)
Definition slice {A : Type} (s : list A) (a b : Z) : list A :=
  let len := Z.of_nat (List.length s) in
  let from := if (a <? 0)%Z then Z.max (len + a) 0 else Z.min a len in
  let to := if (b <? 0)%Z then Z.max (len + b) 0 else Z.min b len in
  firstn (Z.to_nat (to - from)) (skipn (Z.to_nat from) s).

(** ECMAScript WhiteSpace and LineTerminator code units, as [trim] strips. *)
Definition is_whitespace (c : code_unit) : bool :=
  ((9 <=? c) && (c <=? 13) || (c =? 32) || (c =? 160) || (c =? 5760)
   || (8192 <=? c) && (c <=? 8202) || (c =? 8232) || (c =? 8233)
   || (c =? 8239) || (c =? 8287) || (c =? 12288) || (c =? 65279))%N.

Fixpoint trimStart (s : jsstring) : jsstring :=
  match s with
  | c :: s' => if is_whitespace c then trimStart s' else s
  | [] => []
  end.

Definition trim (s : jsstring) : jsstring :=
  rev (trimStart (rev (trimStart s))).

(** Decimal rendering of a non-negative integer, as a template literal
    renders an integral number such as an HTTP status. *)
Definition decimal (n : N) : jsstring :=
  lit (NilZero.string_of_uint (N.to_uint n)).

(* ------------------------------------------------------------------ *)
(** ** JavaScript values and exceptions *)

Inductive JSValue : Type :=
| JUndefined
| JNull
| JBool (b : bool)
| JNumber (x : float)
| JString (s : jsstring)
| JArray (items : list JSValue)
| JObject (props : list (jsstring * JSValue)).

(** Thrown values.  A [TypeError] is raised by the engine; its payload names
    the property whose call or read failed (the message text is
    engine-specific). *)
Inductive Exn : Type :=
| TypeError (what : string)
| SyntaxError (message : jsstring)
| NetworkError (message : jsstring)
| Error (message : jsstring).

(** ToBoolean. *)
Definition truthy (v : JSValue) : bool :=
  match v with
  | JUndefined | JNull => false
  | JBool b => b
  | JNumber x => negb (PrimFloat.is_zero x || PrimFloat.is_nan x)
  | JString s => match s with [] => false | _ => true end
  | JArray _ | JObject _ => true
  end.

(** [a || b]. *)
Definition js_or (a b : JSValue) : JSValue := if truthy a then a else b.

Fixpoint own_property (props : list (jsstring * JSValue)) (k : jsstring)
  : option JSValue :=
  match props with
  | [] => None
  | (k', v) :: rest => if jsstring_eqb k' k then Some v else own_property rest k
  end.

(** Property read [v.k] for a key [k] that no built-in prototype defines and
    that is neither an index nor ["length"] (here: prompt, code,
    originalPrompt, badJson, response, html, css, js, error).  Reading from
    [undefined] or [null] throws; primitives and arrays have no such
    property. *)
Definition get_field (v : JSValue) (k : string) : Exn + JSValue :=
  match v with
  | JUndefined | JNull => inl (TypeError k)
  | JObject props =>
      inr (match own_property props (lit k) with Some x => x | None => JUndefined end)
  | _ => inr JUndefined
  end.

(** Optional chaining [v?.k]. *)
Definition get_field_opt (v : JSValue) (k : string) : JSValue :=
  match get_field v k with inr x => x | inl _ => JUndefined end.

(** [typeof v === 'string']. *)
Definition is_string (v : JSValue) : bool :=
  match v with JString _ => true | _ => false end.

(* ------------------------------------------------------------------ *)
(** ** State-and-error monad *)

Inductive Outcome (A : Type) : Type :=
| Ret (a : A)
| Throw (e : Exn).
Arguments Ret {A} a.
Arguments Throw {A} e.

Definition M (W A : Type) : Type := W -> Outcome A * W.

Definition ret {W A} (a : A) : M W A := fun w => (Ret a, w).
Definition throw {W A} (e : Exn) : M W A := fun w => (Throw e, w).

Definition bind {W A B} (m : M W A) (k : A -> M W B) : M W B :=
  fun w => match m w with
           | (Ret a, w') => k a w'
           | (Throw e, w') => (Throw e, w')
           end.

(** [try { m } catch (e) { h e }]. *)
Definition try_catch {W A} (m : M W A) (h : Exn -> M W A) : M W A :=
  fun w => match m w with
           | (Throw e, w') => h e w'
           | r => r
           end.

(** A pure computation that may throw. *)
Definition lift_result {W A} (r : Exn + A) : M W A :=
  match r with inl e => throw e | inr a => ret a end.

Declare Scope js_scope.
Delimit Scope js_scope with js.
Notation "x <- m ;; k" := (bind m (fun x => k))
  (at level 61, m at next level, right associativity) : js_scope.
Notation "m ;; k" := (bind m (fun _ => k))
  (at level 61, right associativity) : js_scope.
Open Scope js_scope.

(* ------------------------------------------------------------------ *)
(** ** Console and HTTP *)

Inductive LogArg : Type :=
| LStr (s : jsstring)      (* a string argument or interpolation *)
| LMessage (e : Exn)       (* [error.message] *)
| LExn (e : Exn).          (* the error object itself *)

Inductive Level : Type := LevelLog | LevelError.

(** One console call: [text] is the first argument as the source writes it
    (a template literal keeps its placeholders), [args] are the interpolated
    values followed by the remaining arguments. *)
Record LogEntry : Type := mkLog {
  level : Level;
  text : string;
  args : list LogArg
}.

Record FetchRequest : Type := mkFetch {
  url : jsstring;
  method : string;
  headers : list (string * string);
  body : option jsstring
}.

(** What a fetch resolves to: the status line and the outcome of reading the
    body as text. *)
Record HttpReply : Type := mkReply {
  status : N;
  statusText : jsstring;
  payload : Exn + jsstring
}.

(** [response.ok]: the status is in the range 200-299. *)
Definition ok (r : HttpReply) : bool :=
  ((200 <=? status r) && (status r <=? 299))%N.

(** [response.text()]. *)
Definition response_text {W} (r : HttpReply) : M W jsstring :=
  lift_result (payload r).

(* ------------------------------------------------------------------ *)
(** ** Method calls on a dynamically typed receiver

    A JSON-derived value holds no function, so a method exists only when the
    receiver's built-in prototype has it: strings have [trim], [indexOf],
    [lastIndexOf], [substring] and [slice]; arrays have [indexOf],
    [lastIndexOf] and [slice]; everything else throws a [TypeError]. *)

Definition is_char (c : code_unit) (v : JSValue) : bool :=
  match v with
  | JString [x] => N.eqb x c
  | _ => false
  end.

(** [Array.prototype.indexOf] / [lastIndexOf] searching for a one-code-unit
    string (strict equality on the elements). *)
Fixpoint array_indexOf_from (c : code_unit) (xs : list JSValue) (i : Z) : Z :=
  match xs with
  | [] => (-1)%Z
  | x :: xs' => if is_char c x then i else array_indexOf_from c xs' (i + 1)%Z
  end.

Fixpoint array_lastIndexOf_from (c : code_unit) (xs : list JSValue) (i best : Z) : Z :=
  match xs with
  | [] => best
  | x :: xs' => array_lastIndexOf_from c xs' (i + 1)%Z (if is_char c x then i else best)
  end.

Definition call_indexOf (recv : JSValue) (c : code_unit) : Exn + Z :=
  match recv with
  | JString s => inr (indexOf s c)
  | JArray xs => inr (array_indexOf_from c xs 0%Z)
  | _ => inl (TypeError "indexOf")
  end.

Definition call_lastIndexOf (recv : JSValue) (c : code_unit) : Exn + Z :=
  match recv with
  | JString s => inr (lastIndexOf s c)
  | JArray xs => inr (array_lastIndexOf_from c xs 0%Z (-1)%Z)
  | _ => inl (TypeError "lastIndexOf")
  end.

Definition call_substring (recv : JSValue) (a b : Z) : Exn + jsstring :=
  match recv with
  | JString s => inr (substring s a b)
  | _ => inl (TypeError "substring")
  end.

Definition call_slice (recv : JSValue) (a b : Z) : Exn + JSValue :=
  match recv with
  | JString s => inr (JString (slice s a b))
  | JArray xs => inr (JArray (slice xs a b))
  | _ => inl (TypeError "slice")
  end.

Definition call_trim (recv : JSValue) : Exn + jsstring :=
  match recv with
  | JString s => inr (trim s)
  | _ => inl (TypeError "trim")
  end.

(* ------------------------------------------------------------------ *)
(** ** String conversion *)

Section Conversions.

(** [Number::toString], the runtime's rendering of a double. *)
Variable Number_toString : float -> jsstring.

(** ToString, as a template literal applies it.  An array joins its
    elements with commas ([null] and [undefined] as the empty string); a
    plain object prints as [[object Object]] unless an own (hence not
    callable) [toString] shadows the inherited one, in which case no
    primitive is reached. *)
Fixpoint ToString (v : JSValue) : Exn + jsstring :=
  match v with
  | JUndefined => inr (lit "undefined")
  | JNull => inr (lit "null")
  | JBool b => inr (if b then lit "true" else lit "false")
  | JNumber x => inr (Number_toString x)
  | JString s => inr s
  | JArray items =>
      (fix join (xs : list JSValue) : Exn + jsstring :=
         match xs with
         | [] => inr []
         | x :: rest =>
             match (match x with
                    | JUndefined | JNull => inr []
                    | _ => ToString x
                    end) with
             | inl e => inl e
             | inr sx =>
                 match rest with
                 | [] => inr sx
                 | _ => match join rest with
                        | inl e => inl e
                        | inr sr => inr (sx ++ lit "," ++ sr)
                        end
                 end
             end
         end) items
  | JObject props =>
      match own_property props (lit "toString") with
      | Some _ => inl (TypeError "toString")
      | None => inr (lit "[object Object]")
      end
  end.

End Conversions.

(* ------------------------------------------------------------------ *)
(** ** The relay service *)

Module Server.

(** What [res.json] wrote: the status line and the body before
    serialisation. *)
Record Response : Type := mkResponse {
  code : N;
  content : JSValue
}.

(** The state of one request: the console, the outbound calls made so far,
    the Express [res] object, and the local [rawResponseText] of
    [processGenerativeRequest], which its [catch] block reads. *)
Record State : Type := mkState {
  console : list LogEntry;
  fetched : list FetchRequest;
  statusCode : N;
  sent : option Response;
  rawResponseText : JSValue
}.

(** A request as Express hands it to a handler: nothing logged, nothing
    sent, status 200. *)
Definition fresh : State :=
  {| console := []; fetched := []; statusCode := 200%N; sent := None;
     rawResponseText := JUndefined |}.

(** The state after some more console lines. *)
Definition logged (w : State) (entries : list LogEntry) : State :=
  {| console := console w ++ entries; fetched := fetched w;
     statusCode := statusCode w; sent := sent w;
     rawResponseText := rawResponseText w |}.

Definition console_log (t : string) (a : list LogArg) : M State unit :=
  fun w => (Ret tt, logged w [mkLog LevelLog t a]).

Definition console_error (t : string) (a : list LogArg) : M State unit :=
  fun w => (Ret tt, logged w [mkLog LevelError t a]).

(** [res.status(c)]. *)
Definition res_status (c : N) : M State unit :=
  fun w => (Ret tt,
            {| console := console w; fetched := fetched w; statusCode := c;
               sent := sent w; rawResponseText := rawResponseText w |}).

(** [res.json(v)]: writes the response with the current status; Express
    throws when a response was written already. *)
Definition res_json (v : JSValue) : M State unit :=
  fun w => match sent w with
           | Some _ => (Throw (Error (lit "Cannot set headers after they are sent to the client")), w)
           | None =>
               (Ret tt,
                {| console := console w; fetched := fetched w;
                   statusCode := statusCode w;
                   sent := Some (mkResponse (statusCode w) v);
                   rawResponseText := rawResponseText w |})
           end.

Definition set_rawResponseText (v : JSValue) : M State unit :=
  fun w => (Ret tt,
            {| console := console w; fetched := fetched w;
               statusCode := statusCode w; sent := sent w;
               rawResponseText := v |}).

Definition get_rawResponseText : M State JSValue :=
  fun w => (Ret (rawResponseText w), w).

(** The fixed system directive (lines 17-64). *)
Definition BASE_SYSTEM_PROMPT : jsstring :=
  lit "You are a code generation engine. Your ONLY output must be a single, raw, valid JSON object. Do not include any other text, markdown, or explanations. The JSON object must contain three string keys: "
  ++ dquote
  ++ lit "html"
  ++ dquote
  ++ lit ", "
  ++ dquote
  ++ lit "css"
  ++ dquote
  ++ lit ", and "
  ++ dquote
  ++ lit "js"
  ++ dquote
  ++ lit ". All content within the keys must be properly escaped for JSON.
1.  **Strict JSON Output:** The entirety of your response must be a valid JSON object, parsable by 'JSON.parse()'.
2.  **No Trailing Commas:** Ensure no trailing commas exist within the JSON object or its nested structures.
3.  **Perfect String Escaping:** All characters within JSON string values must be correctly escaped.
4.  **Complete Code Regeneration:** Always provide the full, complete code for all three files ("
  ++ dquote
  ++ lit "html"
  ++ dquote
  ++ lit ", "
  ++ dquote
  ++ lit "css"
  ++ dquote
  ++ lit ", "
  ++ dquote
  ++ lit "js"
  ++ dquote
  ++ lit "), even if the user's request seems minor or targets a specific component. Assume a fresh generation each time.
5.  **Zero Extra Text:** Produce ONLY the JSON object. No explanations, no introductory or concluding remarks, no inline comments in the JSON itself, and no markdown formatting outside the JSON.
6.  **Flawless Responsiveness & Adaptability:** Your generated code MUST be fully responsive and adapt seamlessly across all device sizes, from the smallest mobile screens to large desktop displays. Implement flexible layouts, fluid units (e.g., percentages, 'vw'/'vh'), and media queries effectively.
8.  **Exceptional CSS Practices for Aesthetic & Maintainability:**
    -   Employ modern, maintainable CSS. Avoid inline styles entirely.
    -   Utilize semantic class names and IDs logically.
    -   Implement CSS variables for consistent theming (colors, fonts, spacing).
    -   Apply principles of good design:
        -   **Visual Hierarchy:** Use size, color, and spacing to guide the user's eye.
        -   **Consistency:** Maintain consistent spacing, typography, and component styling throughout the design.
        -   **Color Palette:** Select a harmonious and appealing color palette. Provide a ':root' section with CSS variables for colors.
        -   **Typography:** Choose legible and attractive font pairings. Define font sizes for different screen sizes.
        -   **Whitespace:** Utilize ample whitespace to improve readability and visual appeal.
        -   **Shadows & Gradients:** Apply subtle shadows and gradients where they enhance depth and modern aesthetics without being overbearing.
        -   **Animations & Transitions:** Implement smooth, subtle CSS transitions and animations for interactive elements (buttons, links, hover effects) to improve perceived performance and delight.
    -   Ensure your CSS is clean, well-commented (where necessary for complex sections), and easily understandable.
9.  **Robust & Smooth Scrolling Navigation:**
    -   For all internal navigation links ('<a>' tags with an 'href' attribute starting with '#'), you MUST implement a JavaScript event listener.
    -   This script should prevent the browser's default jump behavior and instead trigger a smooth scroll animation to the corresponding element with the matching ID.
    -   This is a mandatory feature for all generated sites to ensure a polished user experience and prevent disruptive jumps in the preview environment.
    -   **Mandatory JavaScript for smooth scrolling (or equivalent robust implementation):**
        ```javascript
        document.addEventListener('DOMContentLoaded', () => {
            document.querySelectorAll('a[href^="
  ++ dquote
  ++ lit "#"
  ++ dquote
  ++ lit "]').forEach(anchor => {
                anchor.addEventListener('click', function (e) {
                    e.preventDefault();
                    const targetId = this.getAttribute('href');
                    const targetElement = document.querySelector(targetId);
                    if (targetElement) {
                        targetElement.scrollIntoView({
                            behavior: 'smooth',
                            block: 'start' // Ensure the element is at the top of the viewport
                        });
                    }
                });
            });
        });
        ```
    -   You MUST include this exact or functionally identical logic within the "
  ++ dquote
  ++ lit "js"
  ++ dquote
  ++ lit " part of your JSON response whenever navigation links are present.

By adhering to these directives, you will consistently generate web applications that are not only functional but also possess a beautiful, attractive, and professional frontend design, delivering an outstanding UI/UX.

Example of a PERFECT response:
{"
  ++ dquote
  ++ lit "html"
  ++ dquote
  ++ lit ":"
  ++ dquote
  ++ lit "<!DOCTYPE html>..."
  ++ dquote
  ++ lit ","
  ++ dquote
  ++ lit "css"
  ++ dquote
  ++ lit ":"
  ++ dquote
  ++ lit "body {...}"
  ++ dquote
  ++ lit ","
  ++ dquote
  ++ lit "js"
  ++ dquote
  ++ lit ":"
  ++ dquote
  ++ lit "document.addEventListener(...)"
  ++ dquote
  ++ lit "}".

Section Relay.

(** The language runtime. *)
Variable JSON_parse : jsstring -> Exn + JSValue.
Variable JSON_stringify : JSValue -> option jsstring.
Variable Number_toString : float -> jsstring.

(** The network: what a call resolves to (or rejects with). *)
Variable network : FetchRequest -> Exn + HttpReply.

(** [process.env.OLLAMA_MODEL]. *)
Variable env_OLLAMA_MODEL : option jsstring.

Definition OLLAMA_BASE_URL : jsstring :=
  lit "http://localhost:11434/api/generate".

(** [process.env.OLLAMA_MODEL || 'codellama']. *)
Definition OLLAMA_MODEL_NAME : jsstring :=
  match env_OLLAMA_MODEL with
  | Some (c :: s) => c :: s
  | _ => lit "codellama"
  end.

(** [fetch(url, init)]: the call is recorded, then resolves or rejects. *)
Definition fetch (req : FetchRequest) : M State HttpReply :=
  fun w => (match network req with inl e => Throw e | inr r => Ret r end,
            {| console := console w; fetched := fetched w ++ [req];
               statusCode := statusCode w; sent := sent w;
               rawResponseText := rawResponseText w |}).

(** [response.json()]: the body text, parsed. *)
Definition response_json (r : HttpReply) : M State JSValue :=
  t <- response_text r ;; lift_result (JSON_parse t).

(** Server file, lines 68-93. *)
Definition extractAndParseJson (text : JSValue) : M State JSValue :=
  console_log "🔍 Raw response received. Attempting to extract JSON..." [] ;;
  startIndex <- lift_result (call_indexOf text lbrace) ;;
  endIndex <- lift_result (call_lastIndexOf text rbrace) ;;
  if ((startIndex =? -1) || (endIndex =? -1) || (endIndex <? startIndex))%Z
  then
    console_error "❌ ERROR: Could not find a JSON object structure in the response." [] ;;
    head <- lift_result (call_substring text 0 500) ;;
    console_log "📋 Raw Text (first 500 chars):" [LStr head] ;;
    ret JNull
  else
    jsonString <- lift_result (call_substring text startIndex (endIndex + 1)) ;;
    try_catch
      (parsed <- lift_result (JSON_parse jsonString) ;;
       console_log "✅ Successfully parsed extracted JSON." [] ;;
       ret parsed)
      (fun error =>
         console_error "❌ ERROR: Failed to parse the extracted JSON string." [LMessage error] ;;
         console_log "📋 Extracted String (first 500 chars):" [LStr (substring jsonString 0 500)] ;;
         ret JNull).

(** The body of the outbound call (lines 105-114). *)
Definition ollama_body (prompt : JSValue) : JSValue :=
  JObject
    [ (lit "model", JString OLLAMA_MODEL_NAME);
      (lit "system", JString BASE_SYSTEM_PROMPT);
      (lit "prompt", prompt);
      (lit "format", JString (lit "json"));
      (lit "stream", JBool false);
      (lit "options", JObject [ (lit "temperature", JNumber 0.2%float) ]) ].

Definition ollama_request (prompt : JSValue) : FetchRequest :=
  {| url := OLLAMA_BASE_URL;
     method := "POST"%string;
     headers := [("Content-Type"%string, "application/json"%string)];
     body := JSON_stringify (ollama_body prompt) |}.

(** The generation-error payload (lines 146-150). *)
Definition generation_error (raw : jsstring) : JSValue :=
  JObject
    [ (lit "error", JString (lit "Failed to generate a valid and complete application."));
      (lit "errorType", JString (lit "GENERATION_ERROR"));
      (lit "rawResponse", JString raw) ].

(** The test of line 137, negated: all three keys are non-empty strings. *)
Definition valid_bundle (html css js : JSValue) : bool :=
  is_string html && is_string css && is_string js
  && truthy html && truthy css && truthy js.

(** Server file, lines 97-152. *)
Definition processGenerativeRequest (prompt : JSValue) : M State unit :=
  set_rawResponseText (JString []) ;;
  try_catch
    (console_log "🔄 Sending request to Ollama with model: ${OLLAMA_MODEL_NAME}" [LStr OLLAMA_MODEL_NAME] ;;
     ollamaResponse <- fetch (ollama_request prompt) ;;
     (if negb (ok ollamaResponse)
      then
        errorBody <- response_text ollamaResponse ;;
        throw (Error (lit "Ollama API error: " ++ decimal (status ollamaResponse)
                      ++ lit " " ++ statusText ollamaResponse
                      ++ lit " - " ++ errorBody))
      else ret tt) ;;
     data <- response_json ollamaResponse ;;
     response <- lift_result (get_field data "response") ;;
     (if negb (truthy response)
      then throw (Error (lit "Ollama response is missing the " ++ dquote
                         ++ lit "response" ++ dquote ++ lit " field."))
      else ret tt) ;;
     set_rawResponseText response ;;
     console_log "✅ Received response from Ollama." [] ;;
     raw <- get_rawResponseText ;;
     parsed <- extractAndParseJson raw ;;
     (if negb (truthy parsed)
      then throw (Error (lit "Failed to extract and parse a valid JSON object from the response."))
      else ret tt) ;;
     html <- lift_result (get_field parsed "html") ;;
     css <- lift_result (get_field parsed "css") ;;
     js <- lift_result (get_field parsed "js") ;;
     (if negb (valid_bundle html css js)
      then throw (Error (lit "Parsed JSON is missing required keys (html, css, js) or the keys have empty values."))
      else ret tt) ;;
     console_log "✅ Successfully validated response structure." [] ;;
     res_json parsed)
    (fun error =>
       console_error "❌ FATAL ERROR in processGenerativeRequest:" [LMessage error] ;;
       res_status 200 ;;
       raw <- get_rawResponseText ;;
       snippet <- lift_result (call_substring raw 0 1000) ;;
       res_json (generation_error snippet)).

Definition validation_error (message : string) : JSValue :=
  JObject [ (lit "error", JString (lit message)) ].

(** [app.post('/generate', ...)], lines 157-163. *)
Definition post_generate (req_body : JSValue) : M State unit :=
  let userPrompt := js_or (get_field_opt req_body "prompt") (JString []) in
  trimmed <- lift_result (call_trim userPrompt) ;;
  if negb (truthy (JString trimmed))
  then res_status 400 ;; res_json (validation_error "prompt is required")
  else processGenerativeRequest userPrompt.

(** The template literal of line 169. *)
Definition followup_instruction (code prompt : jsstring) : jsstring :=
  lit "The user wants to modify the existing application. Current Code: "
  ++ code ++ lit ". User's Change Request: " ++ dquote ++ prompt ++ dquote
  ++ lit ". Generate the complete, updated code.".

(** [app.post('/followup', ...)], lines 165-171. *)
Definition post_followup (req_body : JSValue) : M State unit :=
  prompt <- lift_result (get_field req_body "prompt") ;;
  code <- lift_result (get_field req_body "code") ;;
  if negb (truthy prompt) || negb (truthy code)
  then res_status 400 ;; res_json (validation_error "A prompt and code are required.")
  else
    let serialized :=
      match JSON_stringify code with Some s => s | None => lit "undefined" end in
    p <- lift_result (ToString Number_toString prompt) ;;
    processGenerativeRequest (JString (followup_instruction serialized p)).

(** The template literal of line 177. *)
Definition retry_instruction (snippet originalPrompt : jsstring) : jsstring :=
  lit "Your previous response was invalid JSON. Invalid response snippet: "
  ++ dquote ++ snippet ++ lit "..." ++ dquote
  ++ lit ". The original request was: " ++ dquote ++ originalPrompt ++ dquote
  ++ lit ". You MUST try again and provide ONLY a valid JSON object.".

(** [app.post('/retry', ...)], lines 173-179. *)
Definition post_retry (req_body : JSValue) : M State unit :=
  originalPrompt <- lift_result (get_field req_body "originalPrompt") ;;
  badJson <- lift_result (get_field req_body "badJson") ;;
  if negb (truthy originalPrompt) || negb (truthy badJson)
  then res_status 400 ;; res_json (validation_error "Original prompt and bad JSON are required.")
  else
    sliced <- lift_result (call_slice badJson 0 200) ;;
    snippet <- lift_result (ToString Number_toString sliced) ;;
    o <- lift_result (ToString Number_toString originalPrompt) ;;
    processGenerativeRequest (JString (retry_instruction snippet o)).

(** The routes registered with [app.post] (lines 157, 165 and 173). *)
Inductive Route : Type := Generate | Followup | Retry.

Definition path (r : Route) : jsstring :=
  match r with
  | Generate => lit "/generate"
  | Followup => lit "/followup"
  | Retry => lit "/retry"
  end.

Definition handler (r : Route) : JSValue -> M State unit :=
  match r with
  | Generate => post_generate
  | Followup => post_followup
  | Retry => post_retry
  end.

End Relay.

End Server.

(* ------------------------------------------------------------------ *)
(** ** The client request helper (src/services/apiService.js) *)

Module Client.

Record State : Type := mkState {
  console : list LogEntry;
  fetched : list FetchRequest
}.

Definition fresh : State := {| console := []; fetched := [] |}.

Definition console_error (t : string) (a : list LogArg) : M State unit :=
  fun w => (Ret tt,
            {| console := console w ++ [mkLog LevelError t a];
               fetched := fetched w |}).

Section ApiService.

Variable JSON_parse : jsstring -> Exn + JSValue.
Variable JSON_stringify : JSValue -> option jsstring.
Variable Number_toString : float -> jsstring.
Variable network : FetchRequest -> Exn + HttpReply.

(** [import.meta.env.VITE_PUBLIC_SERVER_URL]. *)
Variable VITE_PUBLIC_SERVER_URL : option jsstring.

Definition API_BASE_URL : JSValue :=
  match VITE_PUBLIC_SERVER_URL with
  | Some s => JString s
  | None => JUndefined
  end.

Definition fetch (req : FetchRequest) : M State HttpReply :=
  fun w => (match network req with inl e => Throw e | inr r => Ret r end,
            {| console := console w; fetched := fetched w ++ [req] |}).

Definition response_json (r : HttpReply) : M State JSValue :=
  t <- response_text r ;; lift_result (JSON_parse t).

Definition api_request (endpoint : jsstring) (body : JSValue) (base : jsstring)
  : FetchRequest :=
  {| url := base ++ lit "/" ++ endpoint;
     method := "POST"%string;
     headers := [("Content-Type"%string, "application/json"%string)];
     body := JSON_stringify body |}.

(** Lines 5-22.  The promise of line 17 is returned without [await], so
    its rejection does not pass through the [catch] block. *)
Definition sendRequest (endpoint : jsstring) (body : JSValue) : M State JSValue :=
  response <-
    try_catch
      (base <- lift_result (ToString Number_toString API_BASE_URL) ;;
       response <- fetch (api_request endpoint body base) ;;
       if negb (ok response)
       then
         errData <- response_json response ;;
         supplied <- lift_result (get_field errData "error") ;;
         message <- lift_result
                      (ToString Number_toString (js_or supplied (JString (lit "API request failed")))) ;;
         throw (Error message)
       else ret response)
      (fun error =>
         console_error "Error in ${endpoint}:" [LStr endpoint; LExn error] ;;
         throw error) ;;
  response_json response.

Definition generateCode (prompt : JSValue) : M State JSValue :=
  sendRequest (lit "generate") (JObject [ (lit "prompt", prompt) ]).

Definition followUp (prompt code : JSValue) : M State JSValue :=
  sendRequest (lit "followup")
              (JObject [ (lit "prompt", prompt); (lit "code", code) ]).

Definition retryWithJson (originalPrompt badJson : JSValue) : M State JSValue :=
  sendRequest (lit "retry")
              (JObject [ (lit "originalPrompt", originalPrompt);
                         (lit "badJson", badJson) ]).

(** An invocation of one of the three exported operations. *)
Inductive Call : Type :=
| CallGenerateCode (prompt : JSValue)
| CallFollowUp (prompt code : JSValue)
| CallRetryWithJson (originalPrompt badJson : JSValue).

Definition invoke (c : Call) : M State JSValue :=
  match c with
  | CallGenerateCode prompt => generateCode prompt
  | CallFollowUp prompt code => followUp prompt code
  | CallRetryWithJson originalPrompt badJson => retryWithJson originalPrompt badJson
  end.

End ApiService.

End Client.

(* ------------------------------------------------------------------ *)
(** ** A strict parser for a fragment of JSON

    Objects, arrays, strings with every escape, the three literals and
    integers of at most fifteen digits; anything else is a syntax error.
    Members keep their source order and a repeated key keeps its last value.
    It instantiates the runtime's [JSON.parse] where a concrete parser is
    wanted. *)

Module Fragment.

Definition is_json_ws (c : code_unit) : bool :=
  ((c =? 32) || (c =? 9) || (c =? 10) || (c =? 13))%N.

Fixpoint skip_ws (s : jsstring) : jsstring :=
  match s with
  | c :: s' => if is_json_ws c then skip_ws s' else s
  | [] => []
  end.

Definition hex_digit (c : code_unit) : option N :=
  if ((48 <=? c) && (c <=? 57))%N then Some (c - 48)%N
  else if ((97 <=? c) && (c <=? 102))%N then Some (c - 87)%N
  else if ((65 <=? c) && (c <=? 70))%N then Some (c - 55)%N
  else None.

Definition simple_escape (c : code_unit) : option code_unit :=
  if (c =? 34)%N then Some 34%N
  else if (c =? 92)%N then Some 92%N
  else if (c =? 47)%N then Some 47%N
  else if (c =? 98)%N then Some 8%N
  else if (c =? 102)%N then Some 12%N
  else if (c =? 110)%N then Some 10%N
  else if (c =? 114)%N then Some 13%N
  else if (c =? 116)%N then Some 9%N
  else None.

(** The characters after an opening quote, up to the closing one. *)
Fixpoint string_body (s acc : jsstring) : option (jsstring * jsstring) :=
  match s with
  | [] => None
  | c :: r =>
      if (c =? 34)%N then Some (rev acc, r)
      else if (c =? 92)%N then
        match r with
        | e :: r1 =>
            match simple_escape e with
            | Some x => string_body r1 (x :: acc)
            | None =>
                if (e =? 117)%N then
                  match r1 with
                  | a :: b :: c' :: d :: r2 =>
                      match hex_digit a, hex_digit b, hex_digit c', hex_digit d with
                      | Some ha, Some hb, Some hc, Some hd =>
                          string_body r2 ((((ha * 16 + hb) * 16 + hc) * 16 + hd)%N :: acc)
                      | _, _, _, _ => None
                      end
                  | _ => None
                  end
                else None
            end
        | [] => None
        end
      else if (c <? 32)%N then None
      else string_body r (c :: acc)
  end.

Definition is_digit (c : code_unit) : bool := ((48 <=? c) && (c <=? 57))%N.

Fixpoint digits (s : jsstring) (acc : list N) : list N * jsstring :=
  match s with
  | c :: r => if is_digit c then digits r ((c - 48)%N :: acc) else (rev acc, s)
  | [] => (rev acc, [])
  end.

Definition digits_value (ds : list N) : Z :=
  fold_left (fun a d => (a * 10 + Z.of_N d)%Z) ds 0%Z.

(** An integer literal: an optional minus sign, then [0] or a digit
    sequence without a leading zero, not followed by a fraction or an
    exponent. *)
Definition number (s : jsstring) : option (JSValue * jsstring) :=
  let '(neg, s1) := match s with
                    | c :: r => if (c =? 45)%N then (true, r) else (false, s)
                    | [] => (false, s)
                    end in
  let '(ds, r) := digits s1 [] in
  let well_formed :=
    match ds with
    | [] => false
    | [_] => true
    | d :: _ => negb (d =? 0)%N
    end in
  let followed :=
    match r with
    | c :: _ => ((c =? 46) || (c =? 101) || (c =? 69))%N
    | [] => false
    end in
  if well_formed && negb followed && (List.length ds <=? 15)%nat
  then
    let x := PrimFloat.of_uint63 (Uint63.of_Z (digits_value ds)) in
    Some (JNumber (if neg then PrimFloat.opp x else x), r)
  else None.

Fixpoint starts_with (p s : jsstring) : option jsstring :=
  match p, s with
  | [], _ => Some s
  | x :: p', y :: s' => if (x =? y)%N then starts_with p' s' else None
  | _ :: _, [] => None
  end.

(** [obj[k] = v] on an object under construction. *)
Fixpoint set_property (props : list (jsstring * JSValue)) (k : jsstring) (v : JSValue)
  : list (jsstring * JSValue) :=
  match props with
  | [] => [(k, v)]
  | (k', v') :: rest =>
      if jsstring_eqb k' k then (k', v) :: rest
      else (k', v') :: set_property rest k v
  end.

Fixpoint value (fuel : nat) (s : jsstring) {struct fuel} : option (JSValue * jsstring) :=
  match fuel with
  | O => None
  | S f =>
      match skip_ws s with
      | [] => None
      | c :: r =>
          if (c =? 123)%N then
            match skip_ws r with
            | c' :: r' => if (c' =? 125)%N then Some (JObject [], r')
                          else members f (c' :: r') []
            | [] => None
            end
          else if (c =? 91)%N then
            match skip_ws r with
            | c' :: r' => if (c' =? 93)%N then Some (JArray [], r')
                          else elements f (c' :: r') []
            | [] => None
            end
          else if (c =? 34)%N then
            match string_body r [] with
            | Some (str, r') => Some (JString str, r')
            | None => None
            end
          else
            match starts_with (lit "true") (c :: r),
                  starts_with (lit "false") (c :: r),
                  starts_with (lit "null") (c :: r) with
            | Some r', _, _ => Some (JBool true, r')
            | _, Some r', _ => Some (JBool false, r')
            | _, _, Some r' => Some (JNull, r')
            | None, None, None => number (c :: r)
            end
      end
  end
with members (fuel : nat) (s : jsstring) (acc : list (jsstring * JSValue)) {struct fuel}
  : option (JSValue * jsstring) :=
  match fuel with
  | O => None
  | S f =>
      match skip_ws s with
      | q :: r =>
          if (q =? 34)%N then
            match string_body r [] with
            | Some (k, r1) =>
                match skip_ws r1 with
                | colon :: r2 =>
                    if (colon =? 58)%N then
                      match value f r2 with
                      | Some (v, r3) =>
                          match skip_ws r3 with
                          | sep :: r4 =>
                              if (sep =? 44)%N then members f r4 (set_property acc k v)
                              else if (sep =? 125)%N
                                   then Some (JObject (set_property acc k v), r4)
                                   else None
                          | [] => None
                          end
                      | None => None
                      end
                    else None
                | [] => None
                end
            | None => None
            end
          else None
      | [] => None
      end
  end
with elements (fuel : nat) (s : jsstring) (acc : list JSValue) {struct fuel}
  : option (JSValue * jsstring) :=
  match fuel with
  | O => None
  | S f =>
      match value f s with
      | Some (v, r) =>
          match skip_ws r with
          | sep :: r' =>
              if (sep =? 44)%N then elements f r' (acc ++ [v])
              else if (sep =? 93)%N then Some (JArray (acc ++ [v]), r')
              else None
          | [] => None
          end
      | None => None
      end
  end.

Definition unexpected : Exn := SyntaxError (lit "Unexpected token in JSON").

Definition parse (s : jsstring) : Exn + JSValue :=
  match value (S (List.length s)) s with
  | Some (v, r) => match skip_ws r with [] => inr v | _ => inl unexpected end
  | None => inl unexpected
  end.

End Fragment.

(* ------------------------------------------------------------------ *)
(** ** A sample runtime and sample backends

    Closed instances of what the relay and the helper take from their
    environment, for the worked examples: [JSON.parse] is the fragment
    parser above, [Number::toString] and [JSON.stringify] follow ECMA-262
    (shortest round-trip digits; QuoteJSONString), and a backend is a
    function that answers every call the same way. *)

Module Sample.

Fixpoint count_digits (fuel : nat) (n : Z) : Z :=
  match fuel with
  | O => 0%Z
  | S f => if (n <? 10)%Z then 1%Z else (1 + count_digits f (n / 10))%Z
  end.

(** The least [j >= 1] with [num * 10^j >= den], for [0 < num < den]. *)
Fixpoint leading_zeros (fuel : nat) (num den j : Z) : Z :=
  match fuel with
  | O => j
  | S f => if (den <=? num * 10 ^ j)%Z then j else leading_zeros f num den (j + 1)%Z
  end.

(** A positive double [m * 2^e] as [(n, k, s)]: the [k] digits [s] of the
    shortest decimal [s * 10^(n-k)] that reads back as the same double. *)
Fixpoint shortest (fuel : nat) (m : Z) (e : Z) (n k : Z) : Z * Z * Z :=
  let num := (if 0 <=? e then m * 2 ^ e else m)%Z in
  let den := (if 0 <=? e then 1 else 2 ^ (- e))%Z in
  (* s = round (x * 10^(k-n)) *)
  let p := (if 0 <=? k - n then 10 ^ (k - n) else 1)%Z in
  let q := (if 0 <=? k - n then 1 else 10 ^ (n - k))%Z in
  let s := ((2 * num * p + den * q) / (2 * den * q))%Z in
  (* the rounding interval of x, in units of 2^(e-2) *)
  let lower := (if (m =? 2 ^ 52) && (-1074 <? e) then 4 * m - 1 else 4 * m - 2)%Z in
  let upper := (4 * m + 2)%Z in
  let a := (if 0 <=? e - 2 then 2 ^ (e - 2) else 1)%Z in
  let b := (if 0 <=? e - 2 then 1 else 2 ^ (2 - e))%Z in
  (* s * 10^(n-k) = s * q / p, compared with lower * a / b and upper * a / b *)
  let inside :=
    if Z.even m
    then ((lower * a * p <=? s * q * b) && (s * q * b <=? upper * a * p))%Z
    else ((lower * a * p <? s * q * b) && (s * q * b <? upper * a * p))%Z in
  match fuel with
  | O => (n, k, s)
  | S f =>
      if inside
      then if (s =? 10 ^ k)%Z then ((n + 1)%Z, 1%Z, 1%Z) else (n, k, s)
      else shortest f m e n (k + 1)%Z
  end.

Definition zeros (n : Z) : jsstring := repeat 48%N (Z.to_nat n).

Definition digits_of (s : Z) : jsstring := decimal (Z.to_N s).

(** Number::toString of ECMA-262 (radix 10). *)
Definition number_toString (x : float) : jsstring :=
  match Prim2SF x with
  | S754_nan => lit "NaN"
  | S754_zero _ => lit "0"
  | S754_infinity sign => if sign then lit "-Infinity" else lit "Infinity"
  | S754_finite sign mantissa e =>
      let m := Zpos mantissa in
      let num := (if 0 <=? e then m * 2 ^ e else m)%Z in
      let den := (if 0 <=? e then 1 else 2 ^ (- e))%Z in
      let n0 := if (den <=? num)%Z then count_digits 400 (num / den)
                else (1 - leading_zeros 400 num den 1)%Z in
      let '(n, k, s) := shortest 17 m e n0 1 in
      let ds := digits_of s in
      let body :=
        if ((k <=? n) && (n <=? 21))%Z then ds ++ zeros (n - k)
        else if ((0 <? n) && (n <=? 21))%Z
             then firstn (Z.to_nat n) ds ++ lit "." ++ skipn (Z.to_nat n) ds
        else if ((-6 <? n) && (n <=? 0))%Z then lit "0." ++ zeros (- n) ++ ds
        else
          let exponent := (if (0 <=? n - 1)%Z then lit "+" else lit "-")
                          ++ digits_of (Z.abs (n - 1)) in
          if (k =? 1)%Z then ds ++ lit "e" ++ exponent
          else firstn 1 ds ++ lit "." ++ skipn 1 ds ++ lit "e" ++ exponent in
      if sign then lit "-" ++ body else body
  end.

Definition hex_char (d : N) : code_unit :=
  if (d <? 10)%N then (48 + d)%N else (87 + d)%N.

Definition unicode_escape (c : code_unit) : jsstring :=
  lit "\u" ++ [hex_char (c / 4096); hex_char ((c / 256) mod 16);
               hex_char ((c / 16) mod 16); hex_char (c mod 16)].

Definition is_high_surrogate (c : code_unit) : bool :=
  ((55296 <=? c) && (c <=? 56319))%N.

Definition is_low_surrogate (c : code_unit) : bool :=
  ((56320 <=? c) && (c <=? 57343))%N.

(** The characters of QuoteJSONString, between the quotes. *)
Fixpoint quote_body (s : jsstring) : jsstring :=
  match s with
  | [] => []
  | c :: r =>
      if (c =? 8)%N then lit "\b" ++ quote_body r
      else if (c =? 9)%N then lit "\t" ++ quote_body r
      else if (c =? 10)%N then lit "\n" ++ quote_body r
      else if (c =? 12)%N then lit "\f" ++ quote_body r
      else if (c =? 13)%N then lit "\r" ++ quote_body r
      else if (c =? 34)%N then lit "\" ++ dquote ++ quote_body r
      else if (c =? 92)%N then lit "\\" ++ quote_body r
      else if (c <? 32)%N then unicode_escape c ++ quote_body r
      else if is_high_surrogate c then
        match r with
        | d :: r' => if is_low_surrogate d then c :: d :: quote_body r'
                     else unicode_escape c ++ quote_body r
        | [] => unicode_escape c
        end
      else if is_low_surrogate c then unicode_escape c ++ quote_body r
      else c :: quote_body r
  end.

Definition quote (s : jsstring) : jsstring := dquote ++ quote_body s ++ dquote.

Fixpoint join (sep : jsstring) (parts : list jsstring) : jsstring :=
  match parts with
  | [] => []
  | [x] => x
  | x :: rest => x ++ sep ++ join sep rest
  end.

(** JSON.stringify of a JSON-derived value: [None] is [undefined]. *)
Fixpoint stringify (v : JSValue) : option jsstring :=
  match v with
  | JUndefined => None
  | JNull => Some (lit "null")
  | JBool b => Some (if b then lit "true" else lit "false")
  | JNumber x =>
      Some (if PrimFloat.is_nan x || PrimFloat.is_infinity x
            then lit "null" else number_toString x)
  | JString s => Some (quote s)
  | JArray items =>
      Some (lit "["
            ++ join (lit ",")
                 (map (fun x => match stringify x with
                                | Some t => t
                                | None => lit "null"
                                end) items)
            ++ lit "]")
  | JObject props =>
      Some (lit "{"
            ++ join (lit ",")
                 ((fix members (ps : list (jsstring * JSValue)) : list jsstring :=
                     match ps with
                     | [] => []
                     | (k, x) :: rest =>
                         match stringify x with
                         | Some t => (quote k ++ lit ":" ++ t) :: members rest
                         | None => members rest
                         end
                     end) props)
            ++ lit "}")
  end.

(** A backend (or relay) that answers every call with the given status and
    body text. *)
Definition answering (code : N) (reason : string) (text : jsstring)
  : FetchRequest -> Exn + HttpReply :=
  fun _ => inr {| status := code; statusText := lit reason; payload := inr text |}.

(** A backend that cannot be reached. *)
Definition unreachable : FetchRequest -> Exn + HttpReply :=
  fun _ => inl (NetworkError (lit "connect ECONNREFUSED 127.0.0.1:11434")).

(** The envelope the inference backend wraps its output text in. *)
Definition envelope (output : JSValue) : jsstring :=
  match stringify (JObject [ (lit "response", output) ]) with
  | Some t => t
  | None => []
  end.

(** Request bodies. *)
Definition page_request : JSValue :=
  JObject [ (lit "prompt", JString (lit "  a landing page for a bakery ")) ].

Definition numeric_prompt_request : JSValue :=
  JObject [ (lit "prompt", JNumber 5) ].

Definition false_prompt_request : JSValue :=
  JObject [ (lit "prompt", JBool false) ].

Definition sample_code : JSValue :=
  JObject [ (lit "html", JString (lit "<h1>x</h1>"));
            (lit "css", JString []);
            (lit "js", JString []) ].

(** A complete bundle, and the reply of a model that prints just that. *)
Definition good_bundle : JSValue :=
  JObject [ (lit "html", JString (lit "<h1>Bakery</h1>"));
            (lit "css", JString (lit "h1 { color: brown }"));
            (lit "js", JString (lit "console.log(1)")) ].

Definition good_reply : jsstring :=
  match stringify good_bundle with
  | Some t => t
  | None => []
  end.

Definition footer_request : JSValue :=
  JObject [ (lit "prompt", JString (lit "add a footer")); (lit "code", sample_code) ].

Definition empty_prompt_followup : JSValue :=
  JObject [ (lit "prompt", JString []); (lit "code", sample_code) ].

Definition missing_code_followup : JSValue :=
  JObject [ (lit "prompt", JString (lit "add a footer")) ].

Definition retry_request (badJson : JSValue) : JSValue :=
  JObject [ (lit "originalPrompt", JString (lit "a landing page for a bakery"));
            (lit "badJson", badJson) ].

(** The reply of the specification's example: prose, a fenced block, and a
    bundle whose [js] is empty. *)
Definition fenced_reply : jsstring :=
  lit "Sure! ```json
{" ++ dquote ++ lit "html" ++ dquote ++ lit ":" ++ dquote ++ lit "<p>hi</p>" ++ dquote
  ++ lit "," ++ dquote ++ lit "css" ++ dquote ++ lit ":" ++ dquote ++ lit "p{color:red}" ++ dquote
  ++ lit "," ++ dquote ++ lit "js" ++ dquote ++ lit ":" ++ dquote ++ dquote ++ lit "}
```".

Definition fenced_bundle : JSValue :=
  JObject [ (lit "html", JString (lit "<p>hi</p>"));
            (lit "css", JString (lit "p{color:red}"));
            (lit "js", JString []) ].

(** A backend whose model answers with the fenced reply. *)
Definition fenced_backend : FetchRequest -> Exn + HttpReply :=
  answering 200 "OK" (envelope (JString fenced_reply)).

(** The relay answering 400 to the helper. *)
Definition refusing_relay : FetchRequest -> Exn + HttpReply :=
  answering 400 "Bad Request"
    (match stringify (JObject [ (lit "error", JString (lit "prompt is required")) ]) with
     | Some t => t
     | None => []
     end).

(** A backend whose [response] field is a number, and a proxy that answers
    with a page instead of JSON. *)
Definition numeric_backend : FetchRequest -> Exn + HttpReply :=
  answering 200 "OK" (envelope (JNumber 5)).

Definition failing_proxy : FetchRequest -> Exn + HttpReply :=
  answering 502 "Bad Gateway" (lit "<html>Bad Gateway</html>").

(** A relay whose refusal carries an empty [error] string. *)
Definition silent_relay : FetchRequest -> Exn + HttpReply :=
  answering 400 "Bad Request"
    (match stringify (JObject [ (lit "error", JString []) ]) with
     | Some t => t
     | None => []
     end).

(** An invalid reply of 250 code units, longer than what /retry quotes. *)
Definition long_bad_json : jsstring :=
  lit "{" ++ dquote ++ lit "html" ++ dquote ++ lit ":" ++ repeat 120%N 242.

End Sample.

(* ------------------------------------------------------------------ *)
(** * Specification vocabulary *)

(** [c] occurs in [s], first at position [i]. *)
Definition first_at (c : code_unit) (s : jsstring) (i : nat) : Prop :=
  exists pre rest, s = pre ++ c :: rest /\ ~ In c pre /\ List.length pre = i.

(** [c] occurs in [s], last at position [j]. *)
Definition last_at (c : code_unit) (s : jsstring) (j : nat) : Prop :=
  exists pre post, s = pre ++ c :: post /\ ~ In c post /\ List.length pre = j.

(** The text has no ['{'], or no ['}'], or its last ['}'] precedes its
    first ['{']. *)
Definition NoJsonStructure (text : jsstring) : Prop :=
  ~ In lbrace text \/ ~ In rbrace text \/
  exists i j, first_at lbrace text i /\ last_at rbrace text j /\ (j < i)%nat.

(** [sub] is the inclusive substring of [text] from its first ['{'] to its
    last ['}']. *)
Definition brace_span (text sub : jsstring) : Prop :=
  exists i j, first_at lbrace text i /\ last_at rbrace text j /\ (i <= j)%nat
              /\ sub = firstn (j - i + 1) (skipn i text).

(** Prose without braces. *)
Definition brace_free (s : jsstring) : Prop :=
  ~ In lbrace s /\ ~ In rbrace s.

(** A property of every conforming [JSON.parse]: a text whose first code
    unit is ['{'] parses, if at all, to an object. *)
Definition parses_objects (parse : jsstring -> Exn + JSValue) : Prop :=
  forall s v, parse (lbrace :: s) = inr v -> exists props, v = JObject props.

(** A code bundle: an object whose [html], [css] and [js] are all present
    as non-empty strings. *)
Definition Bundle (v : JSValue) : Prop :=
  exists props h c j,
    v = JObject props
    /\ own_property props (lit "html") = Some (JString h) /\ h <> []
    /\ own_property props (lit "css") = Some (JString c) /\ c <> []
    /\ own_property props (lit "js") = Some (JString j) /\ j <> [].

(** The backend call fails before any output text is obtained: the backend
    is unreachable, answers with a non-success status, or its reply has no
    usable [response] field (the body cannot be read or parsed, it is
    [null], or the field is absent or falsy). *)
Inductive EarlyFailure (parse : jsstring -> Exn + JSValue)
  : Exn + HttpReply -> Prop :=
| Unreachable e :
    EarlyFailure parse (inl e)
| BadStatus reply :
    ok reply = false -> EarlyFailure parse (inr reply)
| UnreadableBody reply e :
    ok reply = true -> payload reply = inl e -> EarlyFailure parse (inr reply)
| UnparsableBody reply text e :
    ok reply = true -> payload reply = inr text -> parse text = inl e ->
    EarlyFailure parse (inr reply)
| NullBody reply text data e :
    ok reply = true -> payload reply = inr text -> parse text = inr data ->
    get_field data "response" = inl e ->
    EarlyFailure parse (inr reply)
| MissingOutput reply text data response :
    ok reply = true -> payload reply = inr text -> parse text = inr data ->
    get_field data "response" = inr response -> truthy response = false ->
    EarlyFailure parse (inr reply).

(** The backend answered with the output text [raw]. *)
Definition Output (parse : jsstring -> Exn + JSValue)
           (out : Exn + HttpReply) (raw : jsstring) : Prop :=
  exists reply text data,
    out = inr reply /\ ok reply = true /\ payload reply = inr text
    /\ parse text = inr data
    /\ get_field data "response" = inr (JString raw) /\ raw <> [].

(** JSON extraction fails on [raw]. *)
Definition ExtractionFails (parse : jsstring -> Exn + JSValue) (raw : jsstring) : Prop :=
  NoJsonStructure raw \/ exists sub e, brace_span raw sub /\ parse sub = inl e.

(** JSON extraction yields [parsed] from [raw]. *)
Definition Extracts (parse : jsstring -> Exn + JSValue) (raw : jsstring)
           (parsed : JSValue) : Prop :=
  exists sub, brace_span raw sub /\ parse sub = inr parsed.

(** Whitespace-only text (the empty string included). *)
Definition whitespace_only (s : jsstring) : Prop :=
  Forall (fun c => is_whitespace c = true) s.

(** The request passes the field validation of its route and the route's
    instruction is built from it: for /generate, a text prompt that is not
    whitespace-only, passed on as it is; for /followup, a truthy [prompt]
    and a truthy [code], the serialised code and the prompt as text set in
    the template of line 169; for /retry, a truthy [originalPrompt] and a
    truthy [badJson], the first 200 items of [badJson] and the original
    prompt as text set in the template of line 177. *)
Inductive Validated (stringify : JSValue -> option jsstring)
          (number_toString : float -> jsstring)
  : Server.Route -> JSValue -> jsstring -> Prop :=
| ValidGenerate body p :
    get_field_opt body "prompt" = JString p -> ~ whitespace_only p ->
    Validated stringify number_toString Server.Generate body p
| ValidFollowup body prompt code p :
    get_field body "prompt" = inr prompt -> truthy prompt = true ->
    get_field body "code" = inr code -> truthy code = true ->
    ToString number_toString prompt = inr p ->
    Validated stringify number_toString Server.Followup body
      (Server.followup_instruction
         (match stringify code with Some t => t | None => lit "undefined" end) p)
| ValidRetry body originalPrompt badJson sliced snippet o :
    get_field body "originalPrompt" = inr originalPrompt ->
    truthy originalPrompt = true ->
    get_field body "badJson" = inr badJson -> truthy badJson = true ->
    call_slice badJson 0 200 = inr sliced ->
    ToString number_toString sliced = inr snippet ->
    ToString number_toString originalPrompt = inr o ->
    Validated stringify number_toString Server.Retry body
      (Server.retry_instruction snippet o).

(** Every way the generation can fail, with the output text obtained by then
    (empty when the failure precedes it). *)
Definition GenerationFails (parse : jsstring -> Exn + JSValue)
           (out : Exn + HttpReply) (raw : jsstring) : Prop :=
  (EarlyFailure parse out /\ raw = [])
  \/ (Output parse out raw
      /\ (ExtractionFails parse raw
          \/ exists parsed, Extracts parse raw parsed /\ ~ Bundle parsed)).

(** The prompt of a /generate request is missing, empty or whitespace-only. *)
Definition Blank (body : JSValue) : Prop :=
  get_field_opt body "prompt" = JUndefined
  \/ exists s, get_field_opt body "prompt" = JString s /\ whitespace_only s.

(** The prompt of a /generate request is missing or otherwise falsy ([null],
    [false], a zero, [NaN], the empty string), or whitespace-only text. *)
Definition BlankOrFalsy (body : JSValue) : Prop :=
  truthy (get_field_opt body "prompt") = false
  \/ exists s, get_field_opt body "prompt" = JString s /\ whitespace_only s.

(** The request is refused by the field validation of /followup or /retry,
    with the given message: one of the two fields is falsy (a missing field
    reads as [undefined], which is falsy; so is the empty string). *)
Inductive Rejected : Server.Route -> JSValue -> string -> Prop :=
| RejectFollowup body prompt code :
    get_field body "prompt" = inr prompt -> get_field body "code" = inr code ->
    truthy prompt = false \/ truthy code = false ->
    Rejected Server.Followup body "A prompt and code are required."
| RejectRetry body originalPrompt badJson :
    get_field body "originalPrompt" = inr originalPrompt ->
    get_field body "badJson" = inr badJson ->
    truthy originalPrompt = false \/ truthy badJson = false ->
    Rejected Server.Retry body "Original prompt and bad JSON are required.".

(** What each exported operation of the helper posts, and where. *)
Definition call_endpoint (c : Client.Call) : jsstring :=
  match c with
  | Client.CallGenerateCode _ => lit "generate"
  | Client.CallFollowUp _ _ => lit "followup"
  | Client.CallRetryWithJson _ _ => lit "retry"
  end.

Definition call_arguments (c : Client.Call) : JSValue :=
  match c with
  | Client.CallGenerateCode prompt => JObject [ (lit "prompt", prompt) ]
  | Client.CallFollowUp prompt code =>
      JObject [ (lit "prompt", prompt); (lit "code", code) ]
  | Client.CallRetryWithJson originalPrompt badJson =>
      JObject [ (lit "originalPrompt", originalPrompt); (lit "badJson", badJson) ]
  end.

(** [`${API_BASE_URL}`]. *)
Definition base_url (VITE_PUBLIC_SERVER_URL : option jsstring) : jsstring :=
  match VITE_PUBLIC_SERVER_URL with
  | Some s => s
  | None => lit "undefined"
  end.

(** The one request an invocation makes. *)
Definition call_request (stringify : JSValue -> option jsstring)
           (VITE_PUBLIC_SERVER_URL : option jsstring) (c : Client.Call) : FetchRequest :=
  Client.api_request stringify (call_endpoint c) (call_arguments c)
    (base_url VITE_PUBLIC_SERVER_URL).

(** The console line of the helper's [catch] block. *)
Definition log_error (endpoint : jsstring) (e : Exn) : LogEntry :=
  mkLog LevelError "Error in ${endpoint}:" [LStr endpoint; LExn e].

(** The console lines of [extractAndParseJson] on each of its three paths. *)
Definition log_attempt : LogEntry :=
  mkLog LevelLog "🔍 Raw response received. Attempting to extract JSON..." [].

Definition log_no_structure (text : jsstring) : list LogEntry :=
  [ log_attempt;
    mkLog LevelError "❌ ERROR: Could not find a JSON object structure in the response." [];
    mkLog LevelLog "📋 Raw Text (first 500 chars):" [LStr (firstn 500 text)] ].

Definition log_malformed (e : Exn) (sub : jsstring) : list LogEntry :=
  [ log_attempt;
    mkLog LevelError "❌ ERROR: Failed to parse the extracted JSON string." [LMessage e];
    mkLog LevelLog "📋 Extracted String (first 500 chars):" [LStr (firstn 500 sub)] ].

Definition log_parsed : list LogEntry :=
  [ log_attempt; mkLog LevelLog "✅ Successfully parsed extracted JSON." [] ].

(** The backend answered with an output field that is truthy but is not
    text. *)
Definition NonTextOutput (parse : jsstring -> Exn + JSValue)
           (out : Exn + HttpReply) : Prop :=
  exists reply text data response,
    out = inr reply /\ ok reply = true /\ payload reply = inr text
    /\ parse text = inr data
    /\ get_field data "response" = inr response /\ truthy response = true
    /\ forall s, response <> JString s.

(** What a response of the generation procedure carries: a bundle, or the
    generation-error payload with a snippet of at most 1000 code units. *)
Definition BundleOrError (content : JSValue) : Prop :=
  Bundle content
  \/ exists snippet,
      content = Server.generation_error snippet /\ (List.length snippet <= 1000)%nat.

(** No string argument of the console line is longer than [n]. *)
Definition args_within (n : nat) (entry : LogEntry) : Prop :=
  Forall (fun a => match a with
                   | LStr s => (List.length s <= n)%nat
                   | _ => True
                   end) (args entry).

(** A field that is absent or text. *)
Definition text_or_absent (v : JSValue) : Prop :=
  v = JUndefined \/ exists s, v = JString s.

(** A request whose text fields are, each, absent or text: the prompt of
    /generate; the prompt of /followup (its code may be any value); both
    fields of /retry.  A request to /followup or /retry has a body, that is,
    [req.body] is neither [undefined] nor [null]: lines 166 and 174
    destructure it. *)
Inductive TextRequest : Server.Route -> JSValue -> Prop :=
| TextGenerate body :
    text_or_absent (get_field_opt body "prompt") ->
    TextRequest Server.Generate body
| TextFollowup body :
    body <> JUndefined -> body <> JNull ->
    text_or_absent (get_field_opt body "prompt") ->
    TextRequest Server.Followup body
| TextRetry body :
    body <> JUndefined -> body <> JNull ->
    text_or_absent (get_field_opt body "originalPrompt") ->
    text_or_absent (get_field_opt body "badJson") ->
    TextRequest Server.Retry body.

(** The state in which a handler leaves a request it refuses. *)
Definition refused (message : string) : Server.State :=
  {| Server.console := []; Server.fetched := []; Server.statusCode := 400%N;
     Server.sent := Some (Server.mkResponse 400 (Server.validation_error message));
     Server.rawResponseText := JUndefined |}.

(** What the inference backend is to receive for an instruction (server
    file, lines 102-115): one POST to the generate endpoint of the local
    backend, whose body is the serialisation of the model name, the base
    system prompt, the instruction as [prompt], the JSON format, no
    streaming and the temperature 0.2. *)
Definition backend_payload (model instruction : jsstring) : JSValue :=
  JObject [ (lit "model", JString model);
            (lit "system", JString Server.BASE_SYSTEM_PROMPT);
            (lit "prompt", JString instruction);
            (lit "format", JString (lit "json"));
            (lit "stream", JBool false);
            (lit "options", JObject [ (lit "temperature", JNumber 0.2%float) ]) ].

Definition backend_call (stringify : JSValue -> option jsstring)
           (model instruction : jsstring) : FetchRequest :=
  {| url := lit "http://localhost:11434/api/generate";
     method := "POST"%string;
     headers := [("Content-Type"%string, "application/json"%string)];
     body := stringify (backend_payload model instruction) |}.

(** The model the backend is asked for: the environment's, when it is set
    to a non-empty name, and ['codellama'] otherwise. *)
Definition model_name (env_OLLAMA_MODEL : option jsstring) : jsstring :=
  match env_OLLAMA_MODEL with
  | Some [] | None => lit "codellama"
  | Some name => name
  end.

(* ------------------------------------------------------------------ *)
(** * Properties *)

(** ** Tactics *)

Ltac split_match H :=
  repeat match type of H with
         | context [match ?x with _ => _ end] =>
             destruct x eqn:?; try discriminate H
         end.

Ltac run_relay :=
  cbv [Server.processGenerativeRequest Server.post_generate Server.post_followup
       Server.post_retry bind try_catch ret throw lift_result response_text
       Server.response_json Server.fetch Server.console_log Server.console_error
       Server.res_status Server.res_json Server.set_rawResponseText
       Server.get_rawResponseText Server.logged Server.fresh
       Server.console Server.fetched Server.statusCode Server.sent
       Server.rawResponseText call_substring negb].

(** Closes a goal [exists o w', run = (o, w') /\ fetched w' = _ /\ ...] once
    the run has been reduced to a value. *)
Ltac close_run :=
  eexists; eexists; split; [reflexivity|]; split; [reflexivity|];
  first [reflexivity | eexists; reflexivity].

Ltac run_client :=
  cbv [Client.sendRequest Client.response_json Client.fetch Client.console_error
       Client.fresh Client.console Client.fetched
       bind try_catch ret throw lift_result response_text negb].

Ltac close_client :=
  eexists; eexists; split; [reflexivity|]; split; [reflexivity|].

(** Closes the run part of [exists o w', run = (o, w') /\ fetched w' = _ /\ _]
    and leaves what the outcome carries. *)
Ltac close_outcome :=
  eexists; eexists; split; [reflexivity|]; split; [reflexivity|];
  cbv beta iota; split; [eexists; split; [reflexivity|] |].

(** Refutes [NonTextOutput] against the recorded facts about the reply. *)
Ltac refute_output :=
  let H := fresh in
  intros (? & ? & ? & ? & H); decompose [and] H; congruence.

(** ** Positions of a code unit in a string *)

Lemma indexOf_from_absent c s i :
  ~ In c s -> indexOf_from c s i = (-1)%Z.
Proof.
  revert i. induction s as [|x s IH]; intros i Hn; simpl; [reflexivity|].
  destruct (N.eqb_spec x c) as [->|Hne].
  - exfalso. apply Hn. left. reflexivity.
  - apply IH. intros Hin. apply Hn. right. exact Hin.
Qed.

Lemma indexOf_from_first c pre rest i :
  ~ In c pre ->
  indexOf_from c (pre ++ c :: rest) i = (i + Z.of_nat (List.length pre))%Z.
Proof.
  revert i. induction pre as [|x pre IH]; intros i Hn; simpl.
  - rewrite N.eqb_refl. lia.
  - destruct (N.eqb_spec x c) as [->|Hne].
    + exfalso. apply Hn. left. reflexivity.
    + rewrite IH by (intros Hin; apply Hn; right; exact Hin). lia.
Qed.

Lemma lastIndexOf_from_absent c s i best :
  ~ In c s -> lastIndexOf_from c s i best = best.
Proof.
  revert i best. induction s as [|x s IH]; intros i best Hn; simpl; [reflexivity|].
  destruct (N.eqb_spec x c) as [->|Hne].
  - exfalso. apply Hn. left. reflexivity.
  - apply IH. intros Hin. apply Hn. right. exact Hin.
Qed.

Lemma lastIndexOf_from_last c pre post i best :
  ~ In c post ->
  lastIndexOf_from c (pre ++ c :: post) i best = (i + Z.of_nat (List.length pre))%Z.
Proof.
  revert i best. induction pre as [|x pre IH]; intros i best Hn; simpl.
  - rewrite N.eqb_refl. rewrite lastIndexOf_from_absent by exact Hn. lia.
  - rewrite IH by exact Hn. lia.
Qed.

Lemma indexOf_absent s c : ~ In c s -> indexOf s c = (-1)%Z.
Proof. apply indexOf_from_absent. Qed.

Lemma lastIndexOf_absent s c : ~ In c s -> lastIndexOf s c = (-1)%Z.
Proof. apply lastIndexOf_from_absent. Qed.

Lemma indexOf_first_at s c i : first_at c s i -> indexOf s c = Z.of_nat i.
Proof.
  intros (pre & rest & -> & Hn & <-). unfold indexOf.
  rewrite indexOf_from_first by exact Hn. lia.
Qed.

Lemma lastIndexOf_last_at s c j : last_at c s j -> lastIndexOf s c = Z.of_nat j.
Proof.
  intros (pre & post & -> & Hn & <-). unfold lastIndexOf.
  rewrite lastIndexOf_from_last by exact Hn. lia.
Qed.

(** Every string either lacks [c] or has a first (a last) occurrence. *)
Lemma first_at_total c s : ~ In c s \/ exists i, first_at c s i.
Proof.
  induction s as [|x s IH].
  - left. intros [].
  - destruct (N.eq_dec x c) as [->|Hne].
    + right. exists 0%nat, [], s. repeat split. intros [].
    + destruct IH as [Hn | (i & pre & rest & -> & Hn & <-)].
      * left. intros [H|H]; [exact (Hne H) | exact (Hn H)].
      * right. exists (S (List.length pre)), (x :: pre), rest. repeat split.
        intros [H|H]; [exact (Hne H) | exact (Hn H)].
Qed.

Lemma last_at_total c s : ~ In c s \/ exists j, last_at c s j.
Proof.
  induction s as [|x s IH].
  - left. intros [].
  - destruct IH as [Hn | (j & pre & post & -> & Hn & <-)].
    + destruct (N.eq_dec x c) as [->|Hne].
      * right. exists 0%nat, [], s. repeat split. exact Hn.
      * left. intros [H|H]; [exact (Hne H) | exact (Hn H)].
    + right. exists (S (List.length pre)), (x :: pre), post. repeat split. exact Hn.
Qed.

Lemma first_at_In c s i : first_at c s i -> In c s.
Proof. intros (pre & rest & -> & _). apply in_or_app. right. left. reflexivity. Qed.

Lemma last_at_In c s j : last_at c s j -> In c s.
Proof. intros (pre & post & -> & _). apply in_or_app. right. left. reflexivity. Qed.

Lemma first_at_unique c s i i' : first_at c s i -> first_at c s i' -> i = i'.
Proof.
  intros H H'. apply indexOf_first_at in H, H'. lia.
Qed.

Lemma last_at_unique c s j j' : last_at c s j -> last_at c s j' -> j = j'.
Proof.
  intros H H'. apply lastIndexOf_last_at in H, H'. lia.
Qed.

Lemma substring_clamped s a b :
  (0 <= a <= b)%Z -> (b <= Z.of_nat (List.length s))%Z ->
  substring s a b = firstn (Z.to_nat (b - a)) (skipn (Z.to_nat a) s).
Proof.
  intros Hab Hb. unfold substring. cbv zeta.
  assert (Ea : Z.min (Z.max a 0) (Z.of_nat (List.length s)) = a) by lia.
  assert (Eb : Z.min (Z.max b 0) (Z.of_nat (List.length s)) = b) by lia.
  rewrite Ea, Eb. rewrite Z.min_l, Z.max_r by lia. reflexivity.
Qed.

Lemma substring_prefix s n :
  substring s 0 (Z.of_nat n) = firstn n s.
Proof.
  destruct (Nat.le_gt_cases n (List.length s)) as [Hle|Hgt].
  - rewrite substring_clamped by lia. simpl. rewrite Z.sub_0_r, Nat2Z.id. reflexivity.
  - unfold substring. cbv zeta.
    assert (Ea : Z.min (Z.max 0 0) (Z.of_nat (List.length s)) = 0%Z) by lia.
    assert (Eb : Z.min (Z.max (Z.of_nat n) 0) (Z.of_nat (List.length s))
                 = Z.of_nat (List.length s)) by lia.
    rewrite Ea, Eb. rewrite Z.min_l, Z.max_r by lia.
    rewrite Z.sub_0_r, Nat2Z.id. simpl. rewrite !firstn_all2 by lia. reflexivity.
Qed.

Lemma substring_span s i j :
  (i <= j)%nat -> (j < List.length s)%nat ->
  substring s (Z.of_nat i) (Z.of_nat j + 1) = firstn (j - i + 1) (skipn i s).
Proof.
  intros Hij Hj. rewrite substring_clamped by lia.
  rewrite Nat2Z.id. f_equal. lia.
Qed.

(** ** JSON extraction *)

Lemma logged_logged w a b :
  Server.logged (Server.logged w a) b = Server.logged w (a ++ b).
Proof. unfold Server.logged. simpl. rewrite app_assoc. reflexivity. Qed.

Lemma no_structure_test i j :
  (j < i)%nat ->
  ((Z.of_nat i =? -1) || (Z.of_nat j =? -1) || (Z.of_nat j <? Z.of_nat i))%Z = true.
Proof.
  intros H. destruct (Z.ltb_spec (Z.of_nat j) (Z.of_nat i)); [|lia].
  rewrite orb_true_r. reflexivity.
Qed.

Lemma structure_test i j :
  (i <= j)%nat ->
  ((Z.of_nat i =? -1) || (Z.of_nat j =? -1) || (Z.of_nat j <? Z.of_nat i))%Z = false.
Proof.
  intros H.
  destruct (Z.eqb_spec (Z.of_nat i) (-1)); [lia|].
  destruct (Z.eqb_spec (Z.of_nat j) (-1)); [lia|].
  destruct (Z.ltb_spec (Z.of_nat j) (Z.of_nat i)); [lia|]. reflexivity.
Qed.

Lemma brace_span_starts text sub :
  brace_span text sub -> exists rest, sub = lbrace :: rest.
Proof.
  intros (i & j & (pre & rest & -> & _ & <-) & _ & Hij & ->).
  rewrite skipn_app, skipn_all, Nat.sub_diag. simpl skipn. simpl app.
  replace (j - List.length pre + 1)%nat with (S (j - List.length pre)) by lia.
  simpl. eexists. reflexivity.
Qed.

Lemma NoJsonStructure_or_span text :
  NoJsonStructure text \/ exists sub, brace_span text sub.
Proof.
  destruct (first_at_total lbrace text) as [Hn | [i Hi]]; [left; left; exact Hn|].
  destruct (last_at_total rbrace text) as [Hn | [j Hj]]; [left; right; left; exact Hn|].
  destruct (Nat.le_gt_cases i j) as [Hle|Hgt].
  - right. eexists. exists i, j. repeat split; eauto.
  - left. right. right. exists i, j. auto.
Qed.

Lemma NoJsonStructure_not_span text sub :
  NoJsonStructure text -> brace_span text sub -> False.
Proof.
  intros [Hn | [Hn | (i & j & Hi & Hj & Hlt)]] (i' & j' & Hi' & Hj' & Hle & _).
  - apply Hn. eapply first_at_In; eauto.
  - apply Hn. eapply last_at_In; eauto.
  - rewrite (first_at_unique _ _ _ _ Hi Hi'), (last_at_unique _ _ _ _ Hj Hj') in Hlt. lia.
Qed.

Lemma brace_span_unique text sub sub' :
  brace_span text sub -> brace_span text sub' -> sub = sub'.
Proof.
  intros (i & j & Hi & Hj & _ & ->) (i' & j' & Hi' & Hj' & _ & ->).
  rewrite (first_at_unique _ _ _ _ Hi Hi'), (last_at_unique _ _ _ _ Hj Hj'). reflexivity.
Qed.

Section ExtractionProperties.

Variable JSON_parse : jsstring -> Exn + JSValue.

Lemma extract_no_structure text w :
  NoJsonStructure text ->
  Server.extractAndParseJson JSON_parse (JString text) w
  = (Ret JNull, Server.logged w (log_no_structure text)).
Proof.
  intros H.
  assert (Htest : ((indexOf text lbrace =? -1) || (lastIndexOf text rbrace =? -1)
                   || (lastIndexOf text rbrace <? indexOf text lbrace))%Z = true).
  { destruct H as [Hn | [Hn | (i & j & Hi & Hj & Hlt)]].
    - rewrite (indexOf_absent _ _ Hn). reflexivity.
    - rewrite (lastIndexOf_absent _ _ Hn). simpl. rewrite orb_true_r. reflexivity.
    - rewrite (indexOf_first_at _ _ _ Hi), (lastIndexOf_last_at _ _ _ Hj).
      apply no_structure_test. exact Hlt. }
  unfold Server.extractAndParseJson, bind, Server.console_log, Server.console_error,
    lift_result, call_indexOf, call_lastIndexOf, call_substring, ret.
  rewrite Htest. rewrite !logged_logged.
  change 500%Z with (Z.of_nat 500). rewrite substring_prefix. reflexivity.
Qed.

Lemma extract_span text sub w :
  brace_span text sub ->
  Server.extractAndParseJson JSON_parse (JString text) w
  = match JSON_parse sub with
    | inr v => (Ret v, Server.logged w log_parsed)
    | inl e => (Ret JNull, Server.logged w (log_malformed e sub))
    end.
Proof.
  intros (i & j & Hi & Hj & Hle & ->).
  assert (Hlen : (j < List.length text)%nat).
  { destruct Hj as (pre & post & -> & _ & <-). rewrite length_app. simpl. lia. }
  unfold Server.extractAndParseJson, bind, Server.console_log, Server.console_error,
    lift_result, call_indexOf, call_lastIndexOf, call_substring, ret, try_catch, throw.
  rewrite (indexOf_first_at _ _ _ Hi), (lastIndexOf_last_at _ _ _ Hj), (structure_test _ _ Hle).
  rewrite (substring_span _ _ _ Hle Hlen).
  destruct (JSON_parse _) as [e|v].
  - rewrite !logged_logged. change 500%Z with (Z.of_nat 500).
    rewrite substring_prefix. reflexivity.
  - rewrite !logged_logged. reflexivity.
Qed.

Lemma single_object_span pre mid post :
  ~ In lbrace pre -> ~ In rbrace post ->
  brace_span (pre ++ (lbrace :: mid ++ [rbrace]) ++ post) (lbrace :: mid ++ [rbrace]).
Proof.
  intros Hpre Hpost.
  exists (List.length pre), (List.length pre + S (List.length mid))%nat.
  split; [|split; [|split]].
  - exists pre, ((mid ++ [rbrace]) ++ post). repeat split; auto.
  - exists (pre ++ lbrace :: mid), post. repeat split; auto.
    + rewrite <- !app_assoc. simpl. rewrite <- app_assoc. reflexivity.
    + rewrite length_app. simpl. reflexivity.
  - lia.
  - remember (lbrace :: mid ++ [rbrace]) as sub eqn:Hsub.
    replace (List.length pre + S (List.length mid) - List.length pre + 1)%nat
      with (List.length sub)
      by (subst sub; simpl; rewrite length_app; simpl; lia).
    rewrite skipn_app, skipn_all, Nat.sub_diag.
    change (skipn 0 (sub ++ post)) with (sub ++ post). rewrite app_nil_l.
    rewrite firstn_app, firstn_all, Nat.sub_diag.
    change (firstn 0 post) with (@nil code_unit). rewrite app_nil_r. reflexivity.
Qed.

Hypothesis JSON_parse_objects : parses_objects JSON_parse.

(** C2.  When the inclusive substring from the first ['{'] to the last ['}']
    parses as JSON -- in particular when the text is one well-formed JSON
    object between two stretches of brace-free prose -- extraction returns
    exactly the value [JSON.parse] gives for that substring, logs success,
    and the value is not the failure signal. *)
Theorem extraction_returns_parsed_span text sub v w :
  brace_span text sub
  \/ (exists pre mid post, brace_free pre /\ brace_free post
                           /\ sub = lbrace :: mid ++ [rbrace]
                           /\ text = pre ++ sub ++ post) ->
  JSON_parse sub = inr v ->
  Server.extractAndParseJson JSON_parse (JString text) w
  = (Ret v, Server.logged w log_parsed)
  /\ v <> JNull /\ truthy v = true.
Proof.
  intros Hspan Hparse.
  assert (Hs : brace_span text sub).
  { destruct Hspan as [H | (pre & mid & post & [Hpre _] & [_ Hpost] & -> & ->)];
      [exact H | apply single_object_span; assumption]. }
  rewrite (extract_span _ _ w Hs), Hparse.
  destruct (brace_span_starts _ _ Hs) as [rest ->].
  destruct (JSON_parse_objects _ _ Hparse) as [props ->].
  repeat split. discriminate.
Qed.

(** C3.  Extraction returns the failure signal [null] exactly when the text
    has no ['{'], no ['}'], or its last ['}'] before its first ['{'] (the
    console then reports that no JSON structure was found), or when the
    first-['{']-to-last-['}'] substring does not parse (the console then
    reports the parse error and the first 500 code units of that
    substring). *)
Theorem extraction_fails_exactly_when text w :
  exists r entries,
    Server.extractAndParseJson JSON_parse (JString text) w
    = (Ret r, Server.logged w entries)
    /\ (r = JNull <->
        NoJsonStructure text
        \/ exists sub e, brace_span text sub /\ JSON_parse sub = inl e)
    /\ (NoJsonStructure text -> entries = log_no_structure text)
    /\ (forall sub e, brace_span text sub -> JSON_parse sub = inl e ->
                      entries = log_malformed e sub).
Proof.
  destruct (NoJsonStructure_or_span text) as [Hno | [sub Hs]].
  - exists JNull, (log_no_structure text). split; [|split; [|split]].
    + apply extract_no_structure. exact Hno.
    + split; auto.
    + reflexivity.
    + intros sub e Hs _. destruct (NoJsonStructure_not_span _ _ Hno Hs).
  - rewrite (extract_span _ _ w Hs). destruct (JSON_parse sub) as [e|v] eqn:Hparse.
    + exists JNull, (log_malformed e sub). split; [|split; [|split]].
      * reflexivity.
      * split; auto. intros _. right. exists sub, e. auto.
      * intros Hno. destruct (NoJsonStructure_not_span _ _ Hno Hs).
      * intros sub' e' Hs' Hparse'.
        rewrite (brace_span_unique _ _ _ Hs' Hs) in Hparse'.
        rewrite Hparse in Hparse'. injection Hparse' as <-.
        rewrite (brace_span_unique _ _ _ Hs' Hs). reflexivity.
    + exists v, log_parsed. split; [|split; [|split]].
      * reflexivity.
      * destruct (brace_span_starts _ _ Hs) as [rest Hrest]. subst sub.
        destruct (JSON_parse_objects _ _ Hparse) as [props ->].
        split; [discriminate|].
        intros [Hno | (sub' & e & Hs' & Hparse')].
        -- destruct (NoJsonStructure_not_span _ _ Hno Hs).
        -- rewrite (brace_span_unique _ _ _ Hs' Hs) in Hparse'. congruence.
      * intros Hno. destruct (NoJsonStructure_not_span _ _ Hno Hs).
      * intros sub' e' Hs' Hparse'.
        rewrite (brace_span_unique _ _ _ Hs' Hs) in Hparse'. congruence.
Qed.

End ExtractionProperties.

(** ** The fragment parser is a conforming instance *)

Lemma fragment_members_object f :
  forall s acc v r,
    Fragment.members f s acc = Some (v, r) -> exists props, v = JObject props.
Proof.
  induction f as [|f IH]; intros s acc v r H; simpl in H; [discriminate|].
  split_match H.
  - eapply IH. exact H.
  - injection H as <- _. eexists. reflexivity.
Qed.

Lemma fragment_parses_objects : parses_objects Fragment.parse.
Proof.
  intros s v H. unfold Fragment.parse in H.
  destruct (Fragment.value _ _) as [[v' r]|] eqn:Hv; [|discriminate].
  destruct (Fragment.skip_ws r); [|discriminate]. injection H as ->.
  simpl in Hv. split_match Hv;
    first [ injection Hv as <- _; eexists; reflexivity
          | eapply fragment_members_object; exact Hv ].
Qed.

Lemma fenced_reply_span :
  brace_span Sample.fenced_reply (firstn 49 (skipn 14 Sample.fenced_reply)).
Proof.
  exists 14%nat, 62%nat. split; [|split; [|split]].
  - exists (firstn 14 Sample.fenced_reply), (skipn 15 Sample.fenced_reply).
    split; [reflexivity|]. split; [|reflexivity].
    vm_compute. intuition discriminate.
  - exists (firstn 62 Sample.fenced_reply), (skipn 63 Sample.fenced_reply).
    split; [reflexivity|]. split; [|reflexivity].
    vm_compute. intuition discriminate.
  - lia.
  - reflexivity.
Qed.

Lemma extraction_returns_parsed_span_witness :
  Server.extractAndParseJson Fragment.parse (JString Sample.fenced_reply) Server.fresh
  = (Ret Sample.fenced_bundle, Server.logged Server.fresh log_parsed)
  /\ Sample.fenced_bundle <> JNull /\ truthy Sample.fenced_bundle = true.
Proof.
  apply (extraction_returns_parsed_span Fragment.parse fragment_parses_objects
           Sample.fenced_reply (firstn 49 (skipn 14 Sample.fenced_reply)) Sample.fenced_bundle Server.fresh).
  - left. exact fenced_reply_span.
  - vm_compute. reflexivity.
Defined.

Lemma extraction_fails_exactly_when_witness :
  exists r entries,
    Server.extractAndParseJson Fragment.parse (JString (lit "} sorry, I cannot {")) Server.fresh
    = (Ret r, Server.logged Server.fresh entries)
    /\ (r = JNull <->
        NoJsonStructure (lit "} sorry, I cannot {")
        \/ exists sub e, brace_span (lit "} sorry, I cannot {") sub /\ Fragment.parse sub = inl e)
    /\ (NoJsonStructure (lit "} sorry, I cannot {") ->
        entries = log_no_structure (lit "} sorry, I cannot {"))
    /\ (forall sub e, brace_span (lit "} sorry, I cannot {") sub -> Fragment.parse sub = inl e ->
                      entries = log_malformed e sub).
Proof.
  exact (extraction_fails_exactly_when Fragment.parse fragment_parses_objects
           (lit "} sorry, I cannot {") Server.fresh).
Defined.

(** ** The generation procedure *)

Lemma substring_1000 raw : substring raw 0 1000 = firstn 1000 raw.
Proof. change 1000%Z with (Z.of_nat 1000). apply substring_prefix. Qed.

Section GenerationProperties.

Variable JSON_parse : jsstring -> Exn + JSValue.
Variable JSON_stringify : JSValue -> option jsstring.
Variable network : FetchRequest -> Exn + HttpReply.
Variable env_OLLAMA_MODEL : option jsstring.

#[local] Abbreviation processGenerativeRequest :=
  (Server.processGenerativeRequest JSON_parse JSON_stringify network env_OLLAMA_MODEL).
#[local] Abbreviation ollama_request :=
  (Server.ollama_request JSON_stringify env_OLLAMA_MODEL).

Lemma early_failure_run prompt :
  EarlyFailure JSON_parse (network (ollama_request prompt)) ->
  exists w',
    processGenerativeRequest prompt Server.fresh = (Ret tt, w')
    /\ Server.sent w' = Some (Server.mkResponse 200 (Server.generation_error []))
    /\ Server.fetched w' = [ollama_request prompt].
Proof.
  intros H. run_relay.
  inversion H as [e He | reply Hok He | reply e Hok Hp He | reply text e Hok Hp Hj He
                 | reply text data e Hok Hp Hj Hf He
                 | reply text data response Hok Hp Hj Hf Ht He]; clear H.
  - eexists. split; [reflexivity|]. split; reflexivity.
  - rewrite Hok. destruct (payload reply);
      (eexists; split; [reflexivity|]; split; reflexivity).
  - rewrite Hok, Hp. eexists. split; [reflexivity|]. split; reflexivity.
  - rewrite Hok, Hp, Hj. eexists. split; [reflexivity|]. split; reflexivity.
  - rewrite Hok, Hp, Hj, Hf. eexists. split; [reflexivity|]. split; reflexivity.
  - rewrite Hok, Hp, Hj, Hf, Ht. eexists. split; [reflexivity|]. split; reflexivity.
Qed.

Lemma valid_bundle_true h c j :
  Server.valid_bundle h c j = true <->
  (exists hs, h = JString hs /\ hs <> [])
  /\ (exists cs, c = JString cs /\ cs <> [])
  /\ (exists js, j = JString js /\ js <> []).
Proof.
  unfold Server.valid_bundle. split.
  - intros H. repeat (apply andb_prop in H; destruct H as [H ?]).
    destruct h as [| | | |hs| |]; try discriminate.
    destruct c as [| | | |cs| |]; try discriminate.
    destruct j as [| | | |js| |]; try discriminate.
    destruct hs, cs, js; try discriminate.
    repeat split; eexists; (split; [reflexivity | discriminate]).
  - intros ((hs & -> & Hh) & (cs & -> & Hc) & (js & -> & Hj)).
    destruct hs, cs, js; try contradiction; reflexivity.
Qed.

(** The test of lines 133-139 passes exactly on a bundle. *)
Lemma accepted_iff_Bundle parsed :
  Bundle parsed <->
  truthy parsed = true
  /\ exists h c j,
      get_field parsed "html" = inr h /\ get_field parsed "css" = inr c
      /\ get_field parsed "js" = inr j /\ Server.valid_bundle h c j = true.
Proof.
  split.
  - intros (props & h & c & j & -> & Hh & Hhn & Hc & Hcn & Hj & Hjn).
    split; [reflexivity|]. exists (JString h), (JString c), (JString j).
    unfold get_field. rewrite Hh, Hc, Hj. repeat split.
    apply valid_bundle_true. repeat split; eexists; eauto.
  - intros (Ht & h & c & j & Hh & Hc & Hj & Hv).
    apply valid_bundle_true in Hv.
    destruct Hv as ((hs & -> & Hhn) & (cs & -> & Hcn) & (js & -> & Hjn)).
    destruct parsed as [| | | | | |props]; try discriminate.
    exists props, hs, cs, js. unfold get_field in Hh, Hc, Hj.
    destruct (own_property props (lit "html")) as [x|]; [|discriminate].
    destruct (own_property props (lit "css")) as [y|]; [|discriminate].
    destruct (own_property props (lit "js")) as [z|]; [|discriminate].
    injection Hh as ->. injection Hc as ->. injection Hj as ->.
    repeat split; assumption.
Qed.

Lemma generation_error_not_Bundle raw : ~ Bundle (Server.generation_error raw).
Proof.
  intros (props & h & c & j & E & Hh & _).
  injection E as <-. vm_compute in Hh. discriminate.
Qed.

Lemma extraction_failure_run prompt raw :
  Output JSON_parse (network (ollama_request prompt)) raw ->
  ExtractionFails JSON_parse raw ->
  exists w',
    processGenerativeRequest prompt Server.fresh = (Ret tt, w')
    /\ Server.sent w'
       = Some (Server.mkResponse 200 (Server.generation_error (firstn 1000 raw)))
    /\ Server.fetched w' = [ollama_request prompt].
Proof.
  intros (reply & text & data & Hnet & Hok & Hp & Hj & Hf & Hraw) Hfail.
  run_relay. rewrite Hnet, Hok, Hp, Hj, Hf.
  destruct raw as [|c raw]; [contradiction|]. cbv [truthy].
  destruct Hfail as [Hno | (sub & e & Hs & He)].
  - rewrite (extract_no_structure JSON_parse _ _ Hno). run_relay. cbv [truthy].
    rewrite substring_1000.
    eexists. split; [reflexivity|]. split; reflexivity.
  - rewrite (extract_span JSON_parse _ _ _ Hs), He. run_relay. cbv [truthy].
    rewrite substring_1000.
    eexists. split; [reflexivity|]. split; reflexivity.
Qed.

Lemma extracted_run prompt raw parsed :
  Output JSON_parse (network (ollama_request prompt)) raw ->
  Extracts JSON_parse raw parsed ->
  exists w' content,
    processGenerativeRequest prompt Server.fresh = (Ret tt, w')
    /\ Server.sent w' = Some (Server.mkResponse 200 content)
    /\ (Bundle parsed -> content = parsed)
    /\ (~ Bundle parsed -> content = Server.generation_error (firstn 1000 raw))
    /\ Server.fetched w' = [ollama_request prompt].
Proof.
  intros (reply & text & data & Hnet & Hok & Hp & Hj & Hf & Hraw) (sub & Hs & Hparse).
  pose proof (accepted_iff_Bundle parsed) as HB.
  assert (Hreject : truthy parsed = false
                    \/ (exists h c j, get_field parsed "html" = inr h
                                      /\ get_field parsed "css" = inr c
                                      /\ get_field parsed "js" = inr j
                                      /\ Server.valid_bundle h c j = false) ->
                    ~ Bundle parsed).
  { intros [Ht | (h & c & j & Hh & Hc & Hjs & Hv)] B; apply HB in B.
    - destruct B as [B _]. congruence.
    - destruct B as (_ & h0 & c0 & j0 & E1 & E2 & E3 & Hv0). congruence. }
  run_relay. rewrite Hnet, Hok, Hp, Hj, Hf.
  destruct raw as [|c raw]; [contradiction|].
  change (truthy (JString (c :: raw))) with true. cbv beta iota.
  rewrite (extract_span JSON_parse _ _ _ Hs), Hparse. run_relay.
  destruct (truthy parsed) eqn:Ht.
  2:{ rewrite substring_1000. eexists. eexists. split; [reflexivity|].
      split; [reflexivity|]. split; [|split; reflexivity].
      intros B. destruct (Hreject (or_introl eq_refl) B). }
  destruct (get_field parsed "html") as [e|h] eqn:Hh.
  { destruct parsed; discriminate. }
  destruct (get_field parsed "css") as [e|c'] eqn:Hc.
  { destruct parsed; discriminate. }
  destruct (get_field parsed "js") as [e|j] eqn:Hjs.
  { destruct parsed; discriminate. }
  destruct (Server.valid_bundle h c' j) eqn:Hv.
  - eexists. eexists. split; [reflexivity|]. split; [reflexivity|].
    split; [reflexivity|]. split; [|reflexivity].
    intros NB. exfalso. apply NB. apply HB. split; [reflexivity|].
    exists h, c', j. auto.
  - rewrite substring_1000. eexists. eexists. split; [reflexivity|].
    split; [reflexivity|]. split; [|split; reflexivity].
    intros B. exfalso. apply (fun H => Hreject H B). right. exists h, c', j. auto.
Qed.

Lemma Bundle_decidable parsed : Bundle parsed \/ ~ Bundle parsed.
Proof.
  pose proof (accepted_iff_Bundle parsed) as HB.
  destruct (truthy parsed) eqn:Ht.
  2:{ right. intros B. apply HB in B. destruct B as [B _]. discriminate. }
  destruct (get_field parsed "html") as [e|h] eqn:Hh.
  { destruct parsed; discriminate. }
  destruct (get_field parsed "css") as [e|c] eqn:Hc.
  { destruct parsed; discriminate. }
  destruct (get_field parsed "js") as [e|j] eqn:Hj.
  { destruct parsed; discriminate. }
  destruct (Server.valid_bundle h c j) eqn:Hv.
  - left. apply HB. split; [reflexivity|]. exists h, c, j. auto.
  - right. intros B. apply HB in B.
    destruct B as (_ & h0 & c0 & j0 & E1 & E2 & E3 & Hv0). congruence.
Qed.

Lemma generation_fails_run prompt raw :
  GenerationFails JSON_parse (network (ollama_request prompt)) raw ->
  exists w',
    processGenerativeRequest prompt Server.fresh = (Ret tt, w')
    /\ Server.sent w'
       = Some (Server.mkResponse 200 (Server.generation_error (firstn 1000 raw)))
    /\ Server.fetched w' = [ollama_request prompt].
Proof.
  intros [[H ->] | [Hout [H | (parsed & Hx & HB)]]].
  - apply early_failure_run. exact H.
  - apply extraction_failure_run; assumption.
  - destruct (extracted_run prompt raw parsed Hout Hx)
      as (w' & content & Hrun & Hsent & _ & Hbad & Hf).
    exists w'. rewrite <- (Hbad HB). auto.
Qed.

Lemma extract_frame text w :
  exists o entries,
    Server.extractAndParseJson JSON_parse text w = (o, Server.logged w entries).
Proof.
  unfold Server.extractAndParseJson, bind, Server.console_log, Server.console_error,
    lift_result, call_indexOf, call_lastIndexOf, call_substring, ret, try_catch, throw.
  destruct text as [| | | |s|xs|props];
    try (eexists; eexists; reflexivity).
  - destruct ((indexOf s lbrace =? -1) || (lastIndexOf s rbrace =? -1)
              || (lastIndexOf s rbrace <? indexOf s lbrace))%Z.
    + eexists; eexists. rewrite !logged_logged. reflexivity.
    + destruct (JSON_parse _); eexists; eexists; rewrite !logged_logged; reflexivity.
  - destruct ((array_indexOf_from lbrace xs 0 =? -1)
              || (array_lastIndexOf_from rbrace xs 0 (-1) =? -1)
              || (array_lastIndexOf_from rbrace xs 0 (-1) <? array_indexOf_from lbrace xs 0))%Z.
    + eexists; eexists. rewrite !logged_logged. reflexivity.
    + eexists; eexists. reflexivity.
Qed.

(** Whatever the backend does, the procedure calls it exactly once and, when
    it responds at all, responds with status 200. *)
Lemma generation_total prompt :
  exists o w',
    processGenerativeRequest prompt Server.fresh = (o, w')
    /\ Server.fetched w' = [ollama_request prompt]
    /\ match o with
       | Ret _ => exists content, Server.sent w' = Some (Server.mkResponse 200 content)
       | Throw _ => Server.sent w' = None
       end.
Proof.
  run_relay.
  destruct (network (ollama_request prompt)) as [e|reply].
  { eexists; eexists. split; [reflexivity|]. split; [reflexivity|]. eexists. reflexivity. }
  destruct (ok reply).
  2:{ destruct (payload reply);
      (eexists; eexists; split; [reflexivity|]; split; [reflexivity|]; eexists; reflexivity). }
  destruct (payload reply) as [e|text].
  { eexists; eexists. split; [reflexivity|]. split; [reflexivity|]. eexists. reflexivity. }
  destruct (JSON_parse text) as [e|data].
  { eexists; eexists. split; [reflexivity|]. split; [reflexivity|]. eexists. reflexivity. }
  destruct (get_field data "response") as [e|response].
  { eexists; eexists. split; [reflexivity|]. split; [reflexivity|]. eexists. reflexivity. }
  destruct (truthy response) eqn:Ht.
  2:{ eexists; eexists. split; [reflexivity|]. split; [reflexivity|]. eexists. reflexivity. }
  match goal with
  | |- context [Server.extractAndParseJson JSON_parse response ?w] =>
      destruct (extract_frame response w) as (o & entries & ->)
  end.
  run_relay.
  destruct o as [parsed|e].
  2:{ destruct response; close_run. }
  destruct (truthy parsed).
  2:{ destruct response; close_run. }
  destruct (get_field parsed "html"); [destruct response; close_run|].
  destruct (get_field parsed "css"); [destruct response; close_run|].
  destruct (get_field parsed "js"); [destruct response; close_run|].
  destruct (Server.valid_bundle _ _ _).
  - close_run.
  - destruct response; close_run.
Qed.

End GenerationProperties.

(** ** The endpoints *)

Lemma slice_prefix (s : jsstring) n :
  slice s 0 (Z.of_nat n) = firstn n s.
Proof.
  unfold slice. cbv zeta.
  assert (E0 : (0 <? 0)%Z = false) by reflexivity.
  assert (En : (Z.of_nat n <? 0)%Z = false) by (apply Z.ltb_ge; lia).
  rewrite E0, En. rewrite (Z.min_l 0) by lia. rewrite Z.sub_0_r.
  change (skipn (Z.to_nat 0) s) with s.
  destruct (Nat.le_gt_cases n (List.length s)) as [Hle|Hgt].
  - rewrite Z.min_l by lia. rewrite Nat2Z.id. reflexivity.
  - rewrite Z.min_r by lia. rewrite Nat2Z.id. rewrite !firstn_all2 by lia. reflexivity.
Qed.

Lemma trimStart_nil_iff s : trimStart s = [] <-> whitespace_only s.
Proof.
  unfold whitespace_only. induction s as [|c s IH]; simpl.
  - split; auto.
  - destruct (is_whitespace c) eqn:Hc.
    + rewrite IH. split; [intros H; constructor; assumption | intros H; inversion H; assumption].
    + split; [discriminate|]. intros H. inversion H. congruence.
Qed.

Lemma trimStart_head s c r : trimStart s = c :: r -> is_whitespace c = false.
Proof.
  induction s as [|x s IH]; simpl; [discriminate|].
  destruct (is_whitespace x) eqn:Hx; [exact IH|].
  intros H. injection H as <- _. exact Hx.
Qed.

(** [trim] leaves nothing exactly of whitespace-only text. *)
Lemma trim_nil_iff s : trim s = [] <-> whitespace_only s.
Proof.
  unfold trim. split.
  - intros H. apply (f_equal (@rev code_unit)) in H. rewrite rev_involutive in H.
    simpl in H. apply trimStart_nil_iff in H. apply Forall_rev in H.
    rewrite rev_involutive in H.
    destruct (trimStart s) as [|c r] eqn:Hs.
    + apply trimStart_nil_iff. exact Hs.
    + apply trimStart_head in Hs. inversion H. congruence.
  - intros H. apply trimStart_nil_iff in H. rewrite H. reflexivity.
Qed.

Lemma whitespace_only_decidable s : whitespace_only s \/ ~ whitespace_only s.
Proof.
  destruct (trim s) eqn:Ht.
  - left. apply trim_nil_iff. exact Ht.
  - right. intros H. apply trim_nil_iff in H. congruence.
Qed.

(** A value is falsy, whitespace-only text, other text, or truthy and not
    text. *)
Lemma prompt_cases v :
  truthy v = false
  \/ (exists s, v = JString s /\ whitespace_only s)
  \/ (exists s, v = JString s /\ ~ whitespace_only s)
  \/ (truthy v = true /\ forall s, v <> JString s).
Proof.
  destruct (truthy v) eqn:Ht; [|left; reflexivity]. right.
  destruct v as [| |bv|x|s|xs|props];
    try (right; right; split; [reflexivity | intros s'; discriminate]).
  destruct (whitespace_only_decidable s) as [Hws|Hws].
  - left. exists s. auto.
  - right. left. exists s. auto.
Qed.

Section GenerateEndpoint.

Variable JSON_parse : jsstring -> Exn + JSValue.
Variable JSON_stringify : JSValue -> option jsstring.
Variable network : FetchRequest -> Exn + HttpReply.
Variable env_OLLAMA_MODEL : option jsstring.

#[local] Abbreviation processGenerativeRequest :=
  (Server.processGenerativeRequest JSON_parse JSON_stringify network env_OLLAMA_MODEL).
#[local] Abbreviation ollama_request :=
  (Server.ollama_request JSON_stringify env_OLLAMA_MODEL).
#[local] Abbreviation post_generate :=
  (Server.post_generate JSON_parse JSON_stringify network env_OLLAMA_MODEL).

(** The state in which a handler leaves a refused request. *)
Lemma generate_refuses body :
  BlankOrFalsy body ->
  post_generate body Server.fresh
  = (Ret tt,
     {| Server.console := []; Server.fetched := []; Server.statusCode := 400;
        Server.sent := Some (Server.mkResponse 400
                               (Server.validation_error "prompt is required"));
        Server.rawResponseText := JUndefined |}).
Proof.
  intros [Hf | (s & Hs & Hws)]; cbv [Server.post_generate bind lift_result ret throw].
  - unfold js_or. rewrite Hf. reflexivity.
  - rewrite Hs.
    assert (E : js_or (JString s) (JString []) = JString s) by (destruct s; reflexivity).
    rewrite E. cbv [call_trim]. apply trim_nil_iff in Hws. rewrite Hws. reflexivity.
Qed.

Lemma generate_delegates body p w :
  get_field_opt body "prompt" = JString p -> ~ whitespace_only p ->
  post_generate body w = processGenerativeRequest (JString p) w.
Proof.
  intros Hp Ht. cbv [Server.post_generate bind lift_result ret throw].
  rewrite Hp.
  assert (E : js_or (JString p) (JString []) = JString p) by (destruct p; reflexivity).
  rewrite E. cbv [call_trim].
  destruct (trim p) eqn:Htrim; [|reflexivity].
  exfalso. apply Ht. apply trim_nil_iff. exact Htrim.
Qed.

(** A truthy prompt that is not text has no [trim]: the call of line 159
    throws and nothing has been written. *)
Lemma generate_throws body :
  truthy (get_field_opt body "prompt") = true ->
  (forall s, get_field_opt body "prompt" <> JString s) ->
  post_generate body Server.fresh = (Throw (TypeError "trim"), Server.fresh).
Proof.
  intros Ht Hns. cbv [Server.post_generate bind lift_result ret throw].
  unfold js_or. rewrite Ht.
  destruct (get_field_opt body "prompt") as [| |bv|x|s|xs|props];
    try reflexivity; try discriminate.
  destruct (Hns s eq_refl).
Qed.

(** C5, as the code has it.  Whatever the body of a /generate request, the
    response is 400 with [{error: 'prompt is required'}] exactly when the
    prompt is missing, otherwise falsy, or whitespace-only text, and no
    backend call is made then; a text prompt with a non-whitespace
    character is passed to the generation procedure as received,
    untrimmed. *)
Theorem generate_validation body :
  exists o w',
    post_generate body Server.fresh = (o, w')
    /\ ((exists r, Server.sent w' = Some r /\ Server.code r = 400%N)
        <-> BlankOrFalsy body)
    /\ (BlankOrFalsy body ->
        o = Ret tt
        /\ Server.sent w'
           = Some (Server.mkResponse 400 (Server.validation_error "prompt is required"))
        /\ Server.fetched w' = [])
    /\ (forall s, get_field_opt body "prompt" = JString s -> ~ whitespace_only s ->
                  post_generate body Server.fresh
                  = processGenerativeRequest (JString s) Server.fresh
                  /\ Server.fetched w' = [ollama_request (JString s)]).
Proof.
  assert (Hcases : BlankOrFalsy body
                   \/ (exists s, get_field_opt body "prompt" = JString s
                                 /\ ~ whitespace_only s)
                   \/ (truthy (get_field_opt body "prompt") = true
                       /\ forall s, get_field_opt body "prompt" <> JString s)).
  { destruct (prompt_cases (get_field_opt body "prompt"))
      as [Hf | [(s & Hs & Hws) | [(s & Hs & Hws) | Hother]]].
    - left. left. exact Hf.
    - left. right. exists s. auto.
    - right. left. exists s. auto.
    - right. right. exact Hother. }
  destruct Hcases as [HB | [(s & Hs & Hws) | (Ht & Hns)]].
  - eexists. eexists. split; [apply generate_refuses; exact HB|].
    split; [|split].
    + split; [intros _; exact HB|]. intros _. eexists. split; reflexivity.
    + intros _. repeat split.
    + intros s Hs Hws. exfalso. destruct HB as [Hf | (s' & Hs' & Hws')].
      * rewrite Hs in Hf. destruct s; [apply Hws; constructor | discriminate].
      * rewrite Hs in Hs'. injection Hs' as <-. contradiction.
  - assert (Hnb : ~ BlankOrFalsy body).
    { intros [Hf | (s' & Hs' & Hws')].
      - rewrite Hs in Hf. destruct s; [apply Hws; constructor | discriminate].
      - rewrite Hs in Hs'. injection Hs' as <-. contradiction. }
    pose proof (generate_delegates body s Server.fresh Hs Hws) as Hd.
    destruct (generation_total JSON_parse JSON_stringify network env_OLLAMA_MODEL
                (JString s)) as (o & w' & Hrun & Hf & Hsent).
    exists o, w'. split; [rewrite Hd; exact Hrun|]. split; [|split].
    + split; [|contradiction]. intros (r & Hr & Hcode). exfalso.
      destruct o as [u|e].
      * destruct Hsent as [content Hc]. rewrite Hc in Hr. injection Hr as <-.
        discriminate.
      * rewrite Hsent in Hr. discriminate.
    + contradiction.
    + intros s' Hs' _. rewrite Hs in Hs'. injection Hs' as <-. split; assumption.
  - assert (Hnb : ~ BlankOrFalsy body).
    { intros [Hf | (s' & Hs' & _)]; [congruence | exact (Hns s' Hs')]. }
    eexists. eexists. split; [apply generate_throws; assumption|].
    split; [|split].
    + split; [|contradiction]. intros (r & Hr & _). discriminate.
    + contradiction.
    + intros s Hs _. destruct (Hns s Hs).
Qed.

End GenerateEndpoint.

(** A request that has a body: reading a field of it does not throw. *)
Lemma get_field_present body k :
  body <> JUndefined -> body <> JNull ->
  get_field body k = inr (get_field_opt body k).
Proof. intros Hu Hn. destruct body; try contradiction; reflexivity. Qed.

Section EndpointProperties.

Variable JSON_parse : jsstring -> Exn + JSValue.
Variable JSON_stringify : JSValue -> option jsstring.
Variable Number_toString : float -> jsstring.
Variable network : FetchRequest -> Exn + HttpReply.
Variable env_OLLAMA_MODEL : option jsstring.

#[local] Abbreviation processGenerativeRequest :=
  (Server.processGenerativeRequest JSON_parse JSON_stringify network env_OLLAMA_MODEL).
#[local] Abbreviation ollama_request :=
  (Server.ollama_request JSON_stringify env_OLLAMA_MODEL).
#[local] Abbreviation handler :=
  (Server.handler JSON_parse JSON_stringify Number_toString network env_OLLAMA_MODEL).
#[local] Abbreviation post_generate :=
  (Server.post_generate JSON_parse JSON_stringify network env_OLLAMA_MODEL).
#[local] Abbreviation post_followup :=
  (Server.post_followup JSON_parse JSON_stringify Number_toString network
     env_OLLAMA_MODEL).
#[local] Abbreviation post_retry :=
  (Server.post_retry JSON_parse JSON_stringify Number_toString network
     env_OLLAMA_MODEL).
#[local] Abbreviation Validated := (Validated JSON_stringify Number_toString).

Lemma validated_delegates route body instruction w :
  Validated route body instruction ->
  handler route body w = processGenerativeRequest (JString instruction) w.
Proof.
  intros H.
  destruct H as [body p Hp Ht | body prompt code p Hp Hpt Hc Hct Hs
                | body o b sliced snippet os Ho Hot Hb Hbt Hsl Hsn Hos];
    cbv [Server.handler Server.post_followup Server.post_retry
         bind lift_result ret throw].
  - apply generate_delegates; assumption.
  - rewrite Hp, Hc, Hpt, Hct, Hs. reflexivity.
  - rewrite Ho, Hb, Hot, Hbt, Hsl, Hsn, Hos. reflexivity.
Qed.

Lemma rejected_run route body message :
  Rejected route body message ->
  handler route body Server.fresh
  = (Ret tt,
     {| Server.console := []; Server.fetched := []; Server.statusCode := 400;
        Server.sent := Some (Server.mkResponse 400 (Server.validation_error message));
        Server.rawResponseText := JUndefined |}).
Proof.
  intros H. destruct H as [body p c Hp Hc Hf | body o b Ho Hb Hf];
    cbv [Server.handler Server.post_followup Server.post_retry bind lift_result ret throw].
  - rewrite Hp, Hc.
    assert (E : negb (truthy p) || negb (truthy c) = true)
      by (destruct Hf as [-> | ->]; [reflexivity | apply orb_true_r]).
    rewrite E. reflexivity.
  - rewrite Ho, Hb.
    assert (E : negb (truthy o) || negb (truthy b) = true)
      by (destruct Hf as [-> | ->]; [reflexivity | apply orb_true_r]).
    rewrite E. reflexivity.
Qed.

(** Two non-empty strings pass the validation of /retry. *)
Lemma retry_strings_validated body o b :
  get_field body "originalPrompt" = inr (JString o) -> o <> [] ->
  get_field body "badJson" = inr (JString b) -> b <> [] ->
  Validated Server.Retry body (Server.retry_instruction (firstn 200 b) o).
Proof.
  intros Ho Hon Hb Hbn.
  apply (ValidRetry JSON_stringify Number_toString body (JString o) (JString b)
           (JString (firstn 200 b)) (firstn 200 b) o); try assumption; try reflexivity.
  - destruct o; [contradiction | reflexivity].
  - destruct b; [contradiction | reflexivity].
  - cbv [call_slice]. change 200%Z with (Z.of_nat 200). rewrite slice_prefix. reflexivity.
Qed.

(** Where the backend's output, if there is one, is text: a validated
    request to any of the three routes whose generation fails -- non-success
    backend status, missing output field, failed JSON extraction, or a
    parsed result that is not a bundle -- is answered with status 200 and
    the generation-error payload: an [error] string, [errorType]
    ["GENERATION_ERROR"] and a [rawResponse] of at most 1000 code units; the
    backend has been called exactly once. *)
Lemma generation_failure_reported route body instruction raw :
  Validated route body instruction ->
  GenerationFails JSON_parse (network (ollama_request (JString instruction))) raw ->
  exists w' payload snippet,
    handler route body Server.fresh = (Ret tt, w')
    /\ Server.sent w' = Some (Server.mkResponse 200 payload)
    /\ (exists message, get_field payload "error" = inr (JString message))
    /\ get_field payload "errorType" = inr (JString (lit "GENERATION_ERROR"))
    /\ get_field payload "rawResponse" = inr (JString snippet)
    /\ snippet = firstn 1000 raw
    /\ (List.length snippet <= 1000)%nat
    /\ Server.fetched w' = [ollama_request (JString instruction)].
Proof.
  intros Hv Hfail.
  destruct (generation_fails_run JSON_parse JSON_stringify network env_OLLAMA_MODEL
              _ _ Hfail) as (w' & Hrun & Hsent & Hfetched).
  exists w', (Server.generation_error (firstn 1000 raw)), (firstn 1000 raw).
  rewrite (validated_delegates _ _ _ _ Hv).
  repeat split; auto.
  - eexists. reflexivity.
  - apply firstn_le_length.
Qed.

(** C4.  After a successful extraction the response is the extracted object
    when it is a bundle (all of [html], [css], [js] present as non-empty
    strings) and the generation-error payload otherwise; what is returned is
    a bundle only if the extracted object was one. *)
Theorem only_bundles_returned route body instruction raw parsed :
  Validated route body instruction ->
  Output JSON_parse (network (ollama_request (JString instruction))) raw ->
  Extracts JSON_parse raw parsed ->
  exists w' content,
    handler route body Server.fresh = (Ret tt, w')
    /\ Server.sent w' = Some (Server.mkResponse 200 content)
    /\ (Bundle parsed -> content = parsed)
    /\ (~ Bundle parsed -> content = Server.generation_error (firstn 1000 raw))
    /\ (Bundle content <-> Bundle parsed).
Proof.
  intros Hv Hout Hx.
  destruct (extracted_run JSON_parse JSON_stringify network env_OLLAMA_MODEL
              _ _ _ Hout Hx)
    as (w' & content & Hrun & Hsent & Hgood & Hbad & _).
  exists w', content. rewrite (validated_delegates _ _ _ _ Hv).
  repeat split; auto.
  - intros B. destruct (Bundle_decidable parsed) as [HB|HB]; [exact HB|].
    rewrite (Hbad HB) in B. destruct (generation_error_not_Bundle _ B).
  - intros HB. rewrite (Hgood HB). exact HB.
Qed.

(** The request the procedure sends is the backend call for its
    instruction. *)
Lemma ollama_request_backend_call instruction :
  ollama_request (JString instruction)
  = backend_call JSON_stringify (model_name env_OLLAMA_MODEL) instruction.
Proof.
  unfold Server.ollama_request, Server.ollama_body, Server.OLLAMA_MODEL_NAME,
    Server.OLLAMA_BASE_URL, backend_call, backend_payload, model_name.
  destruct env_OLLAMA_MODEL as [[|c m]|]; reflexivity.
Qed.

(** A validated request makes exactly one backend call, the one for its
    instruction. *)
Lemma validated_run route body instruction :
  Validated route body instruction ->
  exists o w',
    handler route body Server.fresh = (o, w')
    /\ handler route body Server.fresh
       = processGenerativeRequest (JString instruction) Server.fresh
    /\ Server.fetched w'
       = [backend_call JSON_stringify (model_name env_OLLAMA_MODEL) instruction].
Proof.
  intros Hv.
  destruct (generation_total JSON_parse JSON_stringify network env_OLLAMA_MODEL
              (JString instruction)) as (o & w' & Hrun & Hf & _).
  exists o, w'. rewrite (validated_delegates _ _ _ _ Hv).
  rewrite <- ollama_request_backend_call. auto.
Qed.

(** A /followup request with a truthy text prompt and a truthy code passes
    the validation. *)
Lemma followup_text_validated body p code :
  get_field body "prompt" = inr (JString p) -> p <> [] ->
  get_field body "code" = inr code -> truthy code = true ->
  Validated Server.Followup body
    (Server.followup_instruction
       (match JSON_stringify code with Some t => t | None => lit "undefined" end) p).
Proof.
  intros Hp Hpn Hc Hct.
  apply (ValidFollowup JSON_stringify Number_toString body (JString p) code p);
    try assumption; try reflexivity.
  destruct p; [contradiction | reflexivity].
Qed.

(** C6, as the code has it, for a request that has a body ([req.body] is
    neither [undefined] nor [null]).  A /followup request whose [prompt] or
    [code], or a /retry request whose [originalPrompt] or [badJson], is
    missing or otherwise falsy (the empty string included) is answered 400
    with an [{error}] body naming the two fields, and the backend is not
    called.  A /followup request with a non-empty string [prompt] and a
    truthy [code], and a /retry request with two non-empty strings, has the
    composite instruction built from the template of its route and the
    generation procedure run on it, which calls the backend once with that
    instruction as the prompt; so has every request whose two fields are
    truthy and from which the template can be built. *)
Theorem followup_retry_validation req_body :
  req_body <> JUndefined -> req_body <> JNull ->
  (truthy (get_field_opt req_body "prompt") = false
   \/ truthy (get_field_opt req_body "code") = false ->
   exists w',
     post_followup req_body Server.fresh = (Ret tt, w')
     /\ Server.sent w'
        = Some (Server.mkResponse 400
                  (JObject [ (lit "error",
                              JString (lit "A prompt and code are required.")) ]))
     /\ Server.fetched w' = [])
  /\ (truthy (get_field_opt req_body "originalPrompt") = false
      \/ truthy (get_field_opt req_body "badJson") = false ->
      exists w',
        post_retry req_body Server.fresh = (Ret tt, w')
        /\ Server.sent w'
           = Some (Server.mkResponse 400
                     (JObject [ (lit "error",
                                 JString (lit "Original prompt and bad JSON are required.")) ]))
        /\ Server.fetched w' = [])
  /\ (forall p code,
        get_field_opt req_body "prompt" = JString p -> p <> [] ->
        get_field_opt req_body "code" = code -> truthy code = true ->
        exists o w' req payload instruction,
          post_followup req_body Server.fresh = (o, w')
          /\ post_followup req_body Server.fresh
             = processGenerativeRequest (JString instruction) Server.fresh
          /\ instruction
             = lit "The user wants to modify the existing application. Current Code: "
               ++ match JSON_stringify code with Some t => t | None => lit "undefined" end
               ++ lit ". User's Change Request: " ++ dquote ++ p ++ dquote
               ++ lit ". Generate the complete, updated code."
          /\ Server.fetched w' = [req]
          /\ body req = JSON_stringify payload
          /\ get_field payload "prompt" = inr (JString instruction))
  /\ (forall o b,
        get_field_opt req_body "originalPrompt" = JString o -> o <> [] ->
        get_field_opt req_body "badJson" = JString b -> b <> [] ->
        exists out w' req payload instruction,
          post_retry req_body Server.fresh = (out, w')
          /\ post_retry req_body Server.fresh
             = processGenerativeRequest (JString instruction) Server.fresh
          /\ instruction
             = lit "Your previous response was invalid JSON. Invalid response snippet: "
               ++ dquote ++ firstn 200 b ++ lit "..." ++ dquote
               ++ lit ". The original request was: " ++ dquote ++ o ++ dquote
               ++ lit ". You MUST try again and provide ONLY a valid JSON object."
          /\ Server.fetched w' = [req]
          /\ body req = JSON_stringify payload
          /\ get_field payload "prompt" = inr (JString instruction))
  /\ (forall route instruction,
        Validated route req_body instruction ->
        exists o w',
          handler route req_body Server.fresh = (o, w')
          /\ handler route req_body Server.fresh
             = processGenerativeRequest (JString instruction) Server.fresh
          /\ Server.fetched w'
             = [backend_call JSON_stringify (model_name env_OLLAMA_MODEL) instruction]).
Proof.
  intros Hu Hn.
  assert (Hfield : forall k, get_field req_body k = inr (get_field_opt req_body k))
    by (intros k; apply get_field_present; assumption).
  split; [|split; [|split; [|split]]].
  - intros Hf. eexists. split; [|split].
    + exact (rejected_run Server.Followup req_body "A prompt and code are required."
               (RejectFollowup req_body _ _ (Hfield "prompt"%string)
                  (Hfield "code"%string) Hf)).
    + reflexivity.
    + reflexivity.
  - intros Hf. eexists. split; [|split].
    + exact (rejected_run Server.Retry req_body
               "Original prompt and bad JSON are required."
               (RejectRetry req_body _ _ (Hfield "originalPrompt"%string)
                  (Hfield "badJson"%string) Hf)).
    + reflexivity.
    + reflexivity.
  - intros p code Hp Hpn Hc Hct.
    assert (Hv : Validated Server.Followup req_body
                   (Server.followup_instruction
                      (match JSON_stringify code with
                       | Some t => t
                       | None => lit "undefined"
                       end) p)).
    { apply followup_text_validated; try assumption.
      - rewrite Hfield, Hp. reflexivity.
      - rewrite Hfield, Hc. reflexivity. }
    destruct (validated_run _ _ _ Hv) as (out & w' & Hrun & Hd & Hf).
    exists out, w'. eexists. eexists. eexists.
    split; [exact Hrun|]. split; [exact Hd|]. split; [reflexivity|].
    split; [exact Hf|]. split; reflexivity.
  - intros o b Ho Hon Hb Hbn.
    assert (Hv : Validated Server.Retry req_body
                   (Server.retry_instruction (firstn 200 b) o)).
    { apply retry_strings_validated; try assumption.
      - rewrite Hfield, Ho. reflexivity.
      - rewrite Hfield, Hb. reflexivity. }
    destruct (validated_run _ _ _ Hv) as (out & w' & Hrun & Hd & Hf).
    exists out, w'. eexists. eexists. eexists.
    split; [exact Hrun|]. split; [exact Hd|]. split; [reflexivity|].
    split; [exact Hf|]. split; reflexivity.
  - intros route instruction Hv. apply validated_run. exact Hv.
Qed.

(** C7.  A /retry request with two non-empty strings sends the backend one
    call, a POST whose body is the serialisation of a payload whose
    [prompt] is the template of line 177 around a snippet of [badJson] and
    the whole of [originalPrompt].  The snippet is the first 200 code units
    of [badJson]: all of it when it has at most 200, and otherwise exactly
    200 of them, the rest being left out. *)
Theorem retry_quotes_first_200 req_body o b :
  get_field req_body "originalPrompt" = inr (JString o) -> o <> [] ->
  get_field req_body "badJson" = inr (JString b) -> b <> [] ->
  exists out w' req payload snippet instruction,
    post_retry req_body Server.fresh = (out, w')
    /\ Server.fetched w' = [req]
    /\ url req = lit "http://localhost:11434/api/generate"
    /\ method req = "POST"%string
    /\ body req = JSON_stringify payload
    /\ get_field payload "prompt" = inr (JString instruction)
    /\ payload = backend_payload (model_name env_OLLAMA_MODEL) instruction
    /\ instruction
       = lit "Your previous response was invalid JSON. Invalid response snippet: "
         ++ dquote ++ snippet ++ lit "..." ++ dquote
         ++ lit ". The original request was: " ++ dquote ++ o ++ dquote
         ++ lit ". You MUST try again and provide ONLY a valid JSON object."
    /\ snippet = firstn 200 b
    /\ List.length snippet = Nat.min 200 (List.length b)
    /\ ((List.length b <= 200)%nat -> snippet = b)
    /\ ((200 < List.length b)%nat ->
        List.length snippet = 200%nat
        /\ exists rest, rest <> [] /\ b = snippet ++ rest).
Proof.
  intros Ho Hon Hb Hbn.
  destruct (validated_run Server.Retry req_body _
              (retry_strings_validated req_body o b Ho Hon Hb Hbn))
    as (out & w' & Hrun & _ & Hf).
  cbv [Server.handler] in Hrun.
  exists out, w'. eexists. eexists. exists (firstn 200 b). eexists.
  split; [exact Hrun|]. split; [exact Hf|].
  split; [reflexivity|]. split; [reflexivity|]. split; [reflexivity|].
  split; [reflexivity|]. split; [reflexivity|]. split; [reflexivity|].
  split; [reflexivity|]. split; [apply length_firstn|]. split.
  - intros Hle. apply firstn_all2. exact Hle.
  - intros Hlt. split.
    + rewrite length_firstn. apply Nat.min_l. apply Nat.lt_le_incl. exact Hlt.
    + exists (skipn 200 b). split.
      * intros E. apply (f_equal (@List.length code_unit)) in E.
        rewrite length_skipn in E. simpl in E.
        apply Nat.sub_0_le in E. exact (Nat.lt_irrefl _ (Nat.le_lt_trans _ _ _ E Hlt)).
      * symmetry. apply firstn_skipn.
Qed.

(** C9 fails on the code: a request whose field has the wrong type makes the
    handler throw a [TypeError] that nothing catches, and no response is
    written.  Here /generate with the number 5 as [prompt] (line 159 calls
    [trim] on it) and /retry with the number 5 as [badJson] (line 177 calls
    [slice] on it). *)
Theorem nonstring_field_escapes_handler :
  post_generate Sample.numeric_prompt_request Server.fresh
  = (Throw (TypeError "trim"), Server.fresh)
  /\ post_retry (Sample.retry_request (JNumber 5)) Server.fresh
     = (Throw (TypeError "slice"), Server.fresh)
  /\ Server.sent Server.fresh = None.
Proof. repeat split. Qed.

End EndpointProperties.

(** ** The client request helper *)

Section ClientProperties.

Variable JSON_parse : jsstring -> Exn + JSValue.
Variable JSON_stringify : JSValue -> option jsstring.
Variable Number_toString : float -> jsstring.
Variable network : FetchRequest -> Exn + HttpReply.
Variable VITE_PUBLIC_SERVER_URL : option jsstring.

#[local] Abbreviation invoke :=
  (Client.invoke JSON_parse JSON_stringify Number_toString network
     VITE_PUBLIC_SERVER_URL).
#[local] Abbreviation sendRequest :=
  (Client.sendRequest JSON_parse JSON_stringify Number_toString network
     VITE_PUBLIC_SERVER_URL).
#[local] Abbreviation base := (base_url VITE_PUBLIC_SERVER_URL).
#[local] Abbreviation request_of := (call_request JSON_stringify VITE_PUBLIC_SERVER_URL).

Lemma base_url_string :
  ToString Number_toString (Client.API_BASE_URL VITE_PUBLIC_SERVER_URL) = inr base.
Proof.
  unfold Client.API_BASE_URL, base_url. destruct VITE_PUBLIC_SERVER_URL; reflexivity.
Qed.

Lemma sendRequest_run endpoint args :
  exists o w',
    sendRequest endpoint args Client.fresh = (o, w')
    /\ Client.fetched w' = [Client.api_request JSON_stringify endpoint args base]
    /\ (forall e,
          network (Client.api_request JSON_stringify endpoint args base) = inl e ->
          o = Throw e /\ Client.console w' = [log_error endpoint e])
    /\ (forall reply,
          network (Client.api_request JSON_stringify endpoint args base) = inr reply ->
          ok reply = false ->
          exists e,
            o = Throw e /\ Client.console w' = [log_error endpoint e]
            /\ (forall e', payload reply = inl e' -> e = e')
            /\ (forall text e',
                  payload reply = inr text -> JSON_parse text = inl e' -> e = e')
            /\ (forall text errData,
                  payload reply = inr text -> JSON_parse text = inr errData ->
                  (forall e', get_field errData "error" = inl e' -> e = e')
                  /\ (forall supplied,
                        get_field errData "error" = inr supplied ->
                        (truthy supplied = false ->
                         e = Error (lit "API request failed"))
                        /\ (forall message,
                              supplied = JString message -> message <> [] ->
                              e = Error message)
                        /\ (truthy supplied = true ->
                            forall message,
                              ToString Number_toString supplied = inr message ->
                              e = Error message)
                        /\ (truthy supplied = true ->
                            forall e',
                              ToString Number_toString supplied = inl e' -> e = e')))).
Proof.
  run_client. rewrite base_url_string.
  destruct (network _) as [e|reply] eqn:Hnet.
  { close_client. split.
    - intros e0 He0. injection He0 as <-. split; reflexivity.
    - intros reply Hr. discriminate. }
  destruct (ok reply) eqn:Hok.
  { destruct (payload reply) as [e1|text1]; [|destruct (JSON_parse text1)];
      (close_client; split; [intros e0 He0; discriminate|];
       intros reply0 Hr0 Hok0; injection Hr0 as <-; congruence). }
  destruct (payload reply) as [e1|text1] eqn:Hp.
  { close_client. split; [intros e0 He0; discriminate|].
    intros reply0 Hr0 _. injection Hr0 as <-. eexists.
    split; [reflexivity|]. split; [reflexivity|].
    split; [|split]; intros; congruence. }
  destruct (JSON_parse text1) as [e2|data] eqn:Hj.
  { close_client. split; [intros e0 He0; discriminate|].
    intros reply0 Hr0 _. injection Hr0 as <-. eexists.
    split; [reflexivity|]. split; [reflexivity|].
    split; [|split]; intros; congruence. }
  destruct (get_field data "error") as [e3|supplied] eqn:Hf.
  { close_client. split; [intros e0 He0; discriminate|].
    intros reply0 Hr0 _. injection Hr0 as <-. eexists.
    split; [reflexivity|]. split; [reflexivity|].
    split; [|split]; try (intros; congruence).
    intros text errData Ht Hd. rewrite Hp in Ht. injection Ht as <-.
    rewrite Hj in Hd. injection Hd as <-. split; intros; congruence. }
  assert (Hor : js_or supplied (JString (lit "API request failed"))
                = if truthy supplied then supplied
                  else JString (lit "API request failed")) by reflexivity.
  destruct (ToString Number_toString (js_or supplied (JString (lit "API request failed"))))
    as [e4|message] eqn:Hts.
  - close_client. split; [intros e0 He0; discriminate|].
    intros reply0 Hr0 _. injection Hr0 as <-. eexists.
    split; [reflexivity|]. split; [reflexivity|].
    split; [|split]; try (intros; congruence).
    intros text errData Ht Hd. rewrite Hp in Ht. injection Ht as <-.
    rewrite Hj in Hd. injection Hd as <-. split; [intros; congruence|].
    intros supplied0 Hs. rewrite Hf in Hs. injection Hs as <-.
    rewrite Hor in Hts. split; [|split; [|split]].
    + intros Hfalse. rewrite Hfalse in Hts. discriminate.
    + intros m -> Hm. destruct m; [contradiction|]. discriminate.
    + intros Htrue m Hm. rewrite Htrue in Hts. congruence.
    + intros Htrue e' He'. rewrite Htrue in Hts. congruence.
  - close_client. split; [intros e0 He0; discriminate|].
    intros reply0 Hr0 _. injection Hr0 as <-. eexists.
    split; [reflexivity|]. split; [reflexivity|].
    split; [|split]; try (intros; congruence).
    intros text errData Ht Hd. rewrite Hp in Ht. injection Ht as <-.
    rewrite Hj in Hd. injection Hd as <-. split; [intros; congruence|].
    intros supplied0 Hs. rewrite Hf in Hs. injection Hs as <-.
    rewrite Hor in Hts. split; [|split; [|split]].
    + intros Hfalse. rewrite Hfalse in Hts. injection Hts as <-. reflexivity.
    + intros m -> Hm. destruct m; [contradiction|]. injection Hts as <-. reflexivity.
    + intros Htrue m Hm. rewrite Htrue in Hts. congruence.
    + intros Htrue e' He'. rewrite Htrue in Hts. congruence.
Qed.

(** C8, as the code has it.  Every invocation of [generateCode], [followUp]
    or [retryWithJson] makes exactly one call: a POST to the operation's
    endpoint whose body is the JSON serialisation of the arguments.  When
    the call is rejected (transport failure) the helper logs the error and
    rethrows it.  When the reply has a non-success status the helper always
    logs and throws one error: what reading or parsing the body throws, when
    the body is not readable JSON; the [TypeError] of reading [error] off a
    [null] body; an [Error] with the message ['API request failed'] when
    the body's [error] field is absent or otherwise falsy (the empty string
    included); and, when [error] is truthy, an [Error] whose message is the
    field rendered as text -- the field itself when it is a non-empty
    string -- or the error of that rendering. *)
Theorem client_helper_errors (c : Client.Call) :
  exists o w',
    invoke c Client.fresh = (o, w')
    /\ Client.fetched w' = [request_of c]
    /\ url (request_of c) = base ++ lit "/" ++ call_endpoint c
    /\ method (request_of c) = "POST"%string
    /\ body (request_of c) = JSON_stringify (call_arguments c)
    /\ (forall e,
          network (request_of c) = inl e ->
          o = Throw e /\ Client.console w' = [log_error (call_endpoint c) e])
    /\ (forall reply,
          network (request_of c) = inr reply -> ok reply = false ->
          exists e,
            o = Throw e /\ Client.console w' = [log_error (call_endpoint c) e]
            /\ (forall e', payload reply = inl e' -> e = e')
            /\ (forall text e',
                  payload reply = inr text -> JSON_parse text = inl e' -> e = e')
            /\ (forall text errData,
                  payload reply = inr text -> JSON_parse text = inr errData ->
                  (forall e', get_field errData "error" = inl e' -> e = e')
                  /\ (forall supplied,
                        get_field errData "error" = inr supplied ->
                        (truthy supplied = false ->
                         e = Error (lit "API request failed"))
                        /\ (forall message,
                              supplied = JString message -> message <> [] ->
                              e = Error message)
                        /\ (truthy supplied = true ->
                            forall message,
                              ToString Number_toString supplied = inr message ->
                              e = Error message)
                        /\ (truthy supplied = true ->
                            forall e',
                              ToString Number_toString supplied = inl e' -> e = e')))).
Proof.
  destruct (sendRequest_run (call_endpoint c) (call_arguments c))
    as (o & w' & Hrun & Hf & Ht & Hs).
  exists o, w'. split; [destruct c; exact Hrun|].
  split; [exact Hf|]. split; [reflexivity|]. split; [reflexivity|].
  split; [reflexivity|]. split; [exact Ht | exact Hs].
Qed.

End ClientProperties.

(** ** Worked examples on the sample runtime *)

Lemma page_request_validated :
  Validated Sample.stringify Sample.number_toString Server.Generate Sample.page_request
    (lit "  a landing page for a bakery ").
Proof.
  apply ValidGenerate; [reflexivity|].
  intros H. apply trim_nil_iff in H. vm_compute in H. discriminate.
Qed.

Lemma fenced_backend_output prompt :
  Output Fragment.parse
    (Sample.fenced_backend (Server.ollama_request Sample.stringify None prompt)) Sample.fenced_reply.
Proof.
  eexists. eexists. eexists. split; [reflexivity|].
  split; [reflexivity|]. split; [reflexivity|].
  split; [vm_compute; reflexivity|]. split; [reflexivity|]. discriminate.
Qed.

Lemma fenced_reply_extracts : Extracts Fragment.parse Sample.fenced_reply Sample.fenced_bundle.
Proof.
  eexists. split; [exact fenced_reply_span|]. vm_compute. reflexivity.
Qed.

Lemma fenced_bundle_not_Bundle : ~ Bundle Sample.fenced_bundle.
Proof.
  intros (props & h & c & j & E & _ & _ & _ & _ & Hj & Hjn).
  injection E as <-. vm_compute in Hj. injection Hj as <-. apply Hjn. reflexivity.
Qed.

Lemma fenced_generation_fails prompt :
  GenerationFails Fragment.parse
    (Sample.fenced_backend (Server.ollama_request Sample.stringify None prompt)) Sample.fenced_reply.
Proof.
  right. split; [apply fenced_backend_output|]. right.
  exists Sample.fenced_bundle. split; [exact fenced_reply_extracts | exact fenced_bundle_not_Bundle].
Qed.

(** The fenced reply of the specification's example, whose [js] is empty, is
    reported as a generation failure. *)
Example fenced_failure_reported :
  exists w' payload snippet,
    Server.handler Fragment.parse Sample.stringify Sample.number_toString Sample.fenced_backend
      None Server.Generate Sample.page_request Server.fresh = (Ret tt, w')
    /\ Server.sent w' = Some (Server.mkResponse 200 payload)
    /\ (exists message, get_field payload "error" = inr (JString message))
    /\ get_field payload "errorType" = inr (JString (lit "GENERATION_ERROR"))
    /\ get_field payload "rawResponse" = inr (JString snippet)
    /\ snippet = firstn 1000 Sample.fenced_reply
    /\ (List.length snippet <= 1000)%nat
    /\ Server.fetched w'
       = [Server.ollama_request Sample.stringify None
            (JString (lit "  a landing page for a bakery "))].
Proof.
  exact (generation_failure_reported Fragment.parse Sample.stringify
           Sample.number_toString Sample.fenced_backend None
           Server.Generate Sample.page_request _ Sample.fenced_reply
           page_request_validated (fenced_generation_fails _)).
Qed.

Lemma only_bundles_returned_witness :
  exists w' content,
    Server.handler Fragment.parse Sample.stringify Sample.number_toString Sample.fenced_backend
      None Server.Generate Sample.page_request Server.fresh = (Ret tt, w')
    /\ Server.sent w' = Some (Server.mkResponse 200 content)
    /\ (Bundle Sample.fenced_bundle -> content = Sample.fenced_bundle)
    /\ (~ Bundle Sample.fenced_bundle ->
        content = Server.generation_error (firstn 1000 Sample.fenced_reply))
    /\ (Bundle content <-> Bundle Sample.fenced_bundle).
Proof.
  exact (only_bundles_returned Fragment.parse Sample.stringify
           Sample.number_toString Sample.fenced_backend None
           Server.Generate Sample.page_request _ Sample.fenced_reply Sample.fenced_bundle
           page_request_validated (fenced_backend_output _) fenced_reply_extracts).
Defined.

(** C5 as stated fails.  With [prompt: false] the field is present and is
    not text, yet the answer is 400; with [prompt: 5] the handler neither
    answers 400 nor passes the prompt on: it throws, and nothing is written
    or sent to the backend. *)
Lemma generate_nontext_prompt :
  (~ Blank Sample.false_prompt_request
   /\ exists w',
       Server.post_generate Fragment.parse Sample.stringify Sample.fenced_backend None
         Sample.false_prompt_request Server.fresh = (Ret tt, w')
       /\ Server.sent w'
          = Some (Server.mkResponse 400 (Server.validation_error "prompt is required")))
  /\ (~ Blank Sample.numeric_prompt_request
      /\ exists e w',
          Server.post_generate Fragment.parse Sample.stringify Sample.fenced_backend None
            Sample.numeric_prompt_request Server.fresh = (Throw e, w')
          /\ Server.sent w' = None /\ Server.fetched w' = []).
Proof.
  split; split.
  - intros [H | (s & H & _)]; discriminate.
  - eexists. split; reflexivity.
  - intros [H | (s & H & _)]; discriminate.
  - eexists. eexists. split; [reflexivity|]. split; reflexivity.
Qed.

Lemma followup_retry_validation_witness :
  (exists w',
      Server.post_followup Fragment.parse Sample.stringify Sample.number_toString
        Sample.fenced_backend None Sample.missing_code_followup Server.fresh
      = (Ret tt, w')
      /\ Server.sent w'
         = Some (Server.mkResponse 400
                   (JObject [ (lit "error",
                               JString (lit "A prompt and code are required.")) ]))
      /\ Server.fetched w' = [])
  /\ (exists o w' req payload instruction,
        Server.post_followup Fragment.parse Sample.stringify Sample.number_toString
          Sample.fenced_backend None Sample.footer_request Server.fresh = (o, w')
        /\ Server.post_followup Fragment.parse Sample.stringify Sample.number_toString
             Sample.fenced_backend None Sample.footer_request Server.fresh
           = Server.processGenerativeRequest Fragment.parse Sample.stringify
               Sample.fenced_backend None (JString instruction) Server.fresh
        /\ instruction
           = lit "The user wants to modify the existing application. Current Code: "
             ++ match Sample.stringify Sample.sample_code with
                | Some t => t
                | None => lit "undefined"
                end
             ++ lit ". User's Change Request: " ++ dquote ++ lit "add a footer" ++ dquote
             ++ lit ". Generate the complete, updated code."
        /\ Server.fetched w' = [req]
        /\ body req = Sample.stringify payload
        /\ get_field payload "prompt" = inr (JString instruction)).
Proof.
  split.
  - refine (proj1 (followup_retry_validation Fragment.parse Sample.stringify
                     Sample.number_toString Sample.fenced_backend None
                     Sample.missing_code_followup _ _)
                  (or_intror eq_refl)); discriminate.
  - refine (proj1 (proj2 (proj2 (followup_retry_validation Fragment.parse
                                   Sample.stringify Sample.number_toString
                                   Sample.fenced_backend None
                                   Sample.footer_request _ _)))
                  (lit "add a footer") Sample.sample_code eq_refl _ eq_refl eq_refl);
      discriminate.
Defined.

(** C6 as stated fails: in this /followup request both fields are present,
    yet the handler answers 400 and the backend is never called, because the
    prompt is the empty string. *)
Lemma followup_empty_prompt_rejected :
  get_field Sample.empty_prompt_followup "prompt" = inr (JString [])
  /\ get_field Sample.empty_prompt_followup "code" = inr Sample.sample_code
  /\ exists w',
      Server.post_followup Fragment.parse Sample.stringify Sample.number_toString
        Sample.fenced_backend None Sample.empty_prompt_followup Server.fresh = (Ret tt, w')
      /\ Server.sent w'
         = Some (Server.mkResponse 400
                   (Server.validation_error "A prompt and code are required."))
      /\ Server.fetched w' = [].
Proof.
  split; [reflexivity|]. split; [reflexivity|].
  eexists. split; [vm_compute; reflexivity|]. split; reflexivity.
Qed.

(** A request without a body: the destructuring of line 166 (line 174 for
    /retry) throws before anything is written, logged or sent. *)
Example followup_without_body :
  Server.post_followup Fragment.parse Sample.stringify Sample.number_toString
    Sample.fenced_backend None JUndefined Server.fresh
  = (Throw (TypeError "prompt"), Server.fresh)
  /\ Server.post_retry Fragment.parse Sample.stringify Sample.number_toString
       Sample.fenced_backend None JUndefined Server.fresh
     = (Throw (TypeError "originalPrompt"), Server.fresh).
Proof. split; reflexivity. Qed.

Lemma retry_quotes_first_200_witness :
  exists out w' req payload snippet instruction,
    Server.post_retry Fragment.parse Sample.stringify Sample.number_toString
      Sample.fenced_backend None (Sample.retry_request (JString Sample.long_bad_json))
      Server.fresh
    = (out, w')
    /\ Server.fetched w' = [req]
    /\ url req = lit "http://localhost:11434/api/generate"
    /\ method req = "POST"%string
    /\ body req = Sample.stringify payload
    /\ get_field payload "prompt" = inr (JString instruction)
    /\ payload = backend_payload (model_name None) instruction
    /\ instruction
       = lit "Your previous response was invalid JSON. Invalid response snippet: "
         ++ dquote ++ snippet ++ lit "..." ++ dquote
         ++ lit ". The original request was: " ++ dquote
         ++ lit "a landing page for a bakery" ++ dquote
         ++ lit ". You MUST try again and provide ONLY a valid JSON object."
    /\ snippet = firstn 200 Sample.long_bad_json
    /\ List.length snippet = Nat.min 200 (List.length Sample.long_bad_json)
    /\ ((List.length Sample.long_bad_json <= 200)%nat -> snippet = Sample.long_bad_json)
    /\ ((200 < List.length Sample.long_bad_json)%nat ->
        List.length snippet = 200%nat
        /\ exists rest, rest <> [] /\ Sample.long_bad_json = snippet ++ rest).
Proof.
  apply (retry_quotes_first_200 Fragment.parse Sample.stringify Sample.number_toString
           Sample.fenced_backend None (Sample.retry_request (JString Sample.long_bad_json))
           (lit "a landing page for a bakery") Sample.long_bad_json).
  - reflexivity.
  - discriminate.
  - reflexivity.
  - discriminate.
Defined.

(** The invalid reply of the example is cut: it has 250 code units, of which
    the instruction quotes the first 200. *)
Example long_bad_json_cut :
  List.length Sample.long_bad_json = 250%nat
  /\ List.length (firstn 200 Sample.long_bad_json) = 200%nat
  /\ firstn 200 Sample.long_bad_json <> Sample.long_bad_json.
Proof. split; [reflexivity|]. split; [reflexivity|]. discriminate. Qed.

Example generateCode_blank_prompt :
  Client.generateCode Fragment.parse Sample.stringify Sample.number_toString
    Sample.refusing_relay (Some (lit "http://localhost:3001")) (JString []) Client.fresh
  = (Throw (Error (lit "prompt is required")),
     {| Client.console :=
          [ mkLog LevelError "Error in ${endpoint}:"
              [LStr (lit "generate"); LExn (Error (lit "prompt is required"))] ];
        Client.fetched :=
          [ {| url := lit "http://localhost:3001/generate";
               method := "POST";
               headers := [("Content-Type"%string, "application/json"%string)];
               body := Some (lit "{" ++ dquote ++ lit "prompt" ++ dquote ++ lit ":"
                             ++ dquote ++ dquote ++ lit "}") |} ] |}).
Proof. vm_compute. reflexivity. Qed.

(** The specification's two examples. *)
Example generate_fenced_reply :
  exists w',
    Server.post_generate Fragment.parse Sample.stringify Sample.fenced_backend None
      Sample.page_request Server.fresh = (Ret tt, w')
    /\ Server.sent w'
       = Some (Server.mkResponse 200 (Server.generation_error Sample.fenced_reply))
    /\ List.length (Server.fetched w') = 1%nat.
Proof. eexists. split; [vm_compute; reflexivity|]. split; reflexivity. Qed.

Example followup_footer_instruction :
  Validated Sample.stringify Sample.number_toString Server.Followup Sample.footer_request
    (lit "The user wants to modify the existing application. Current Code: {"
     ++ dquote ++ lit "html" ++ dquote ++ lit ":" ++ dquote ++ lit "<h1>x</h1>" ++ dquote
     ++ lit "," ++ dquote ++ lit "css" ++ dquote ++ lit ":" ++ dquote ++ dquote
     ++ lit "," ++ dquote ++ lit "js" ++ dquote ++ lit ":" ++ dquote ++ dquote
     ++ lit "}. User's Change Request: " ++ dquote ++ lit "add a footer" ++ dquote
     ++ lit ". Generate the complete, updated code.").
Proof.
  apply (ValidFollowup Sample.stringify Sample.number_toString Sample.footer_request
           (JString (lit "add a footer")) Sample.sample_code (lit "add a footer"));
    reflexivity.
Qed.

Example generate_good_reply :
  exists w',
    Server.post_generate Fragment.parse Sample.stringify
      (Sample.answering 200 "OK" (Sample.envelope (JString Sample.good_reply))) None
      Sample.page_request Server.fresh = (Ret tt, w')
    /\ Server.sent w' = Some (Server.mkResponse 200 Sample.good_bundle)
    /\ List.length (Server.fetched w') = 1%nat.
Proof. eexists. split; [vm_compute; reflexivity|]. split; reflexivity. Qed.

(** A backend whose [response] field is a number: [extractAndParseJson]
    throws on it, and so does the [catch] block of line 149, so the error
    leaves the handler and no response is written. *)
Example numeric_output_escapes_handler :
  exists w',
    Server.post_generate Fragment.parse Sample.stringify
      (Sample.answering 200 "OK" (Sample.envelope (JNumber 5))) None
      Sample.page_request Server.fresh = (Throw (TypeError "substring"), w')
    /\ Server.sent w' = None.
Proof. eexists. split; [vm_compute; reflexivity|]. reflexivity. Qed.

Lemma client_helper_errors_witness :
  exists o w',
    Client.invoke Fragment.parse Sample.stringify Sample.number_toString Sample.refusing_relay
      (Some (lit "http://localhost:3001")) (Client.CallGenerateCode (JString []))
      Client.fresh = (o, w')
    /\ o = Throw (Error (lit "prompt is required"))
    /\ Client.console w'
       = [log_error (lit "generate") (Error (lit "prompt is required"))]
    /\ List.length (Client.fetched w') = 1%nat.
Proof.
  destruct (client_helper_errors Fragment.parse Sample.stringify Sample.number_toString
              Sample.refusing_relay (Some (lit "http://localhost:3001"))
              (Client.CallGenerateCode (JString [])))
    as (o & w' & Hrun & Hf & _ & _ & _ & _ & Hstatus).
  exists o, w'. split; [exact Hrun|].
  destruct (Hstatus _ eq_refl eq_refl) as (e & Ho & Hc & _ & _ & Hparsed).
  destruct (Hparsed _ _ eq_refl eq_refl) as [_ Hsupplied].
  destruct (Hsupplied _ eq_refl) as (_ & Hmsg & _).
  rewrite (Hmsg (lit "prompt is required") eq_refl) in Ho, Hc by discriminate.
  rewrite Hf. repeat split; assumption.
Defined.

(** C8 as stated fails.  Against a proxy that answers 502 with a page that
    is not JSON, the helper throws the parse error of line 14, which is
    neither an [Error] carrying a server-supplied message nor one carrying
    the fallback.  Against a relay whose refusal has an empty [error]
    string, the field is present, yet the message is the fallback. *)
Lemma helper_error_outside_claim :
  (exists w',
      Client.invoke Fragment.parse Sample.stringify Sample.number_toString
        Sample.failing_proxy (Some (lit "http://localhost:3001"))
        (Client.CallGenerateCode (JString (lit "a page"))) Client.fresh
      = (Throw Fragment.unexpected, w')
      /\ Client.console w' = [log_error (lit "generate") Fragment.unexpected]
      /\ forall message, Fragment.unexpected <> Error message)
  /\ (exists text errData w',
        Sample.silent_relay
          (call_request Sample.stringify (Some (lit "http://localhost:3001"))
             (Client.CallGenerateCode (JString (lit "a page"))))
        = inr {| status := 400; statusText := lit "Bad Request"; payload := inr text |}
        /\ Fragment.parse text = inr errData
        /\ get_field errData "error" = inr (JString [])
        /\ Client.invoke Fragment.parse Sample.stringify Sample.number_toString
             Sample.silent_relay (Some (lit "http://localhost:3001"))
             (Client.CallGenerateCode (JString (lit "a page"))) Client.fresh
           = (Throw (Error (lit "API request failed")), w')).
Proof.
  split.
  - eexists. split; [vm_compute; reflexivity|]. split; [reflexivity|].
    intros message. discriminate.
  - eexists. eexists. eexists. split; [reflexivity|].
    split; [vm_compute; reflexivity|]. split; [reflexivity|].
    vm_compute. reflexivity.
Qed.

(** C1 fails on the code.  Each of the three routes receives a request that
    passes its validation while the backend answers 200 with a [response]
    field that is the number 5.  JSON extraction fails on the number (line
    73 throws on it), the [catch] block then throws again at
    [rawResponseText.substring] (line 149), and the handler ends with that
    [TypeError] escaping: the backend has been called once and no response
    has been written, neither the 200 with the generation-error payload nor
    any other. *)
Theorem generation_failure_unreported :
  (exists e w,
      Server.extractAndParseJson Fragment.parse (JNumber 5) Server.fresh = (Throw e, w))
  /\ (exists w',
        Server.handler Fragment.parse Sample.stringify Sample.number_toString
          Sample.numeric_backend None Server.Generate Sample.page_request Server.fresh
        = (Throw (TypeError "substring"), w')
        /\ Server.sent w' = None /\ List.length (Server.fetched w') = 1%nat)
  /\ (exists w',
        Server.handler Fragment.parse Sample.stringify Sample.number_toString
          Sample.numeric_backend None Server.Followup Sample.footer_request Server.fresh
        = (Throw (TypeError "substring"), w')
        /\ Server.sent w' = None /\ List.length (Server.fetched w') = 1%nat)
  /\ (exists w',
        Server.handler Fragment.parse Sample.stringify Sample.number_toString
          Sample.numeric_backend None Server.Retry
          (Sample.retry_request (JString Sample.fenced_reply)) Server.fresh
        = (Throw (TypeError "substring"), w')
        /\ Server.sent w' = None /\ List.length (Server.fetched w') = 1%nat).
Proof.
  split; [eexists; eexists; vm_compute; reflexivity|].
  split; [|split];
    (eexists; split; [vm_compute; reflexivity|]; split; reflexivity).
Qed.

(** ** Outcomes of JSON extraction *)

Lemma log_no_structure_within text : Forall (args_within 500) (log_no_structure text).
Proof.
  unfold log_no_structure, log_attempt, args_within.
  repeat first [apply Forall_nil | apply Forall_cons | exact I
               | exact (firstn_le_length 500 _)].
Qed.

Lemma log_malformed_within e sub : Forall (args_within 500) (log_malformed e sub).
Proof.
  unfold log_malformed, log_attempt, args_within.
  repeat first [apply Forall_nil | apply Forall_cons | exact I
               | exact (firstn_le_length 500 _)].
Qed.

Lemma log_parsed_within : Forall (args_within 500) log_parsed.
Proof.
  unfold log_parsed, log_attempt, args_within.
  repeat first [apply Forall_nil | apply Forall_cons].
Qed.

(** Every run of [extractAndParseJson]: it only adds console lines, none
    with a string argument over 500 code units; it returns exactly on text
    and otherwise throws a [TypeError]. *)
Lemma extract_outcome JSON_parse text w :
  exists o entries,
    Server.extractAndParseJson JSON_parse text w = (o, Server.logged w entries)
    /\ Forall (args_within 500) entries
    /\ match o with
       | Ret _ => exists s, text = JString s
       | Throw e => (forall s, text <> JString s) /\ exists what, e = TypeError what
       end.
Proof.
  destruct text as [| |bv|x|s|xs|props].
  5:{ destruct (NoJsonStructure_or_span s) as [Hno | [sub Hs]].
      - rewrite (extract_no_structure JSON_parse _ w Hno).
        eexists; eexists. split; [reflexivity|].
        split; [apply log_no_structure_within | eexists; reflexivity].
      - rewrite (extract_span JSON_parse _ _ w Hs).
        destruct (JSON_parse sub) as [e|v];
          (eexists; eexists; split; [reflexivity|]; split;
           [first [apply log_malformed_within | apply log_parsed_within]
           | eexists; reflexivity]). }
  all: unfold Server.extractAndParseJson, bind, Server.console_log, Server.console_error,
    lift_result, call_indexOf, call_lastIndexOf, call_substring, ret, try_catch, throw.
  5:{ destruct ((array_indexOf_from lbrace xs 0 =? -1)
                || (array_lastIndexOf_from rbrace xs 0 (-1) =? -1)
                || (array_lastIndexOf_from rbrace xs 0 (-1)
                    <? array_indexOf_from lbrace xs 0))%Z;
        rewrite ?logged_logged;
        (eexists; eexists; split; [reflexivity|]; split;
         [unfold args_within; repeat first [apply Forall_nil | apply Forall_cons]
         | split; [intros s; discriminate | eexists; reflexivity]]). }
  all: eexists; eexists; split; [reflexivity|]; split;
    [unfold args_within; repeat first [apply Forall_nil | apply Forall_cons]
    | split; [intros s; discriminate | eexists; reflexivity]].
Qed.

(** X1.  [extractAndParseJson] returns a value exactly when its argument is
    text; on any other value (a number, a boolean, [null], an array, an
    object) a method call of lines 73-82 throws a [TypeError]. *)
Theorem extraction_returns_only_on_text JSON_parse text w :
  exists o w',
    Server.extractAndParseJson JSON_parse text w = (o, w')
    /\ ((exists v, o = Ret v) <-> exists s, text = JString s)
    /\ (forall e, o = Throw e -> exists what, e = TypeError what).
Proof.
  destruct (extract_outcome JSON_parse text w) as (o & entries & Hrun & _ & Ho).
  exists o, (Server.logged w entries). split; [exact Hrun|].
  destruct o as [v|e]; split.
  - split; [intros _; exact Ho | intros _; eexists; reflexivity].
  - intros e He. discriminate.
  - destruct Ho as [Hns _]. split.
    + intros [v Hv]. discriminate.
    + intros [s Hs]. destruct (Hns s Hs).
  - intros e' He'. injection He' as <-. apply Ho.
Qed.

(** X2.  Prose around the braces does not matter: text before the first
    ['{'] and after the last ['}'] is dropped, so a reply wrapped in chatter
    or markdown fences extracts to what the bare object extracts to. *)
Theorem extraction_ignores_chatter JSON_parse pre mid post w w0 :
  ~ In lbrace pre -> ~ In rbrace post ->
  fst (Server.extractAndParseJson JSON_parse
         (JString (pre ++ (lbrace :: mid ++ [rbrace]) ++ post)) w)
  = fst (Server.extractAndParseJson JSON_parse
           (JString (lbrace :: mid ++ [rbrace])) w0).
Proof.
  intros Hpre Hpost.
  rewrite (extract_span JSON_parse _ _ w (single_object_span pre mid post Hpre Hpost)).
  pose proof (single_object_span [] mid [] (fun H => H) (fun H => H)) as Hbare.
  rewrite app_nil_r in Hbare. change ([] ++ ?x) with x in Hbare.
  rewrite (extract_span JSON_parse _ _ w0 Hbare).
  destruct (JSON_parse _); reflexivity.
Qed.

(** X3.  [extractAndParseJson] only writes to the console: the outbound
    calls, the response and its status are as before, and the raw text and
    the extracted substring are logged cut to 500 code units, however long
    they are. *)
Theorem extraction_touches_only_console JSON_parse text w :
  exists o w' entries,
    Server.extractAndParseJson JSON_parse text w = (o, w')
    /\ Server.console w' = Server.console w ++ entries
    /\ Forall (args_within 500) entries
    /\ Server.fetched w' = Server.fetched w
    /\ Server.statusCode w' = Server.statusCode w
    /\ Server.sent w' = Server.sent w
    /\ Server.rawResponseText w' = Server.rawResponseText w.
Proof.
  destruct (extract_outcome JSON_parse text w) as (o & entries & Hrun & Hwithin & _).
  exists o, (Server.logged w entries), entries. repeat split; assumption.
Qed.

(** ** Outcomes of the generation procedure *)

Section OutcomeProperties.

Variable JSON_parse : jsstring -> Exn + JSValue.
Variable JSON_stringify : JSValue -> option jsstring.
Variable network : FetchRequest -> Exn + HttpReply.
Variable env_OLLAMA_MODEL : option jsstring.

#[local] Abbreviation processGenerativeRequest :=
  (Server.processGenerativeRequest JSON_parse JSON_stringify network env_OLLAMA_MODEL).
#[local] Abbreviation ollama_request :=
  (Server.ollama_request JSON_stringify env_OLLAMA_MODEL).

Lemma error_payload_shape (s : jsstring) :
  BundleOrError (Server.generation_error (substring s 0 1000)).
Proof.
  right. eexists. split; [reflexivity|]. rewrite substring_1000. apply firstn_le_length.
Qed.

(** Every run of the procedure: one backend call; either a response with
    status 200 that carries a bundle or the error payload, or, exactly when
    the backend's output is truthy and not text, a [TypeError] thrown by
    the [catch] block (line 149) with nothing written. *)
Lemma generation_outcome prompt :
  exists o w',
    processGenerativeRequest prompt Server.fresh = (o, w')
    /\ Server.fetched w' = [ollama_request prompt]
    /\ match o with
       | Ret _ =>
           (exists content,
               Server.sent w' = Some (Server.mkResponse 200 content)
               /\ BundleOrError content)
           /\ ~ NonTextOutput JSON_parse (network (ollama_request prompt))
       | Throw e =>
           Server.sent w' = None /\ e = TypeError "substring"
           /\ NonTextOutput JSON_parse (network (ollama_request prompt))
       end.
Proof.
  run_relay.
  destruct (network (ollama_request prompt)) as [e|reply] eqn:Hnet.
  { close_outcome; [apply error_payload_shape | refute_output]. }
  destruct (ok reply) eqn:Hok.
  2:{ destruct (payload reply) eqn:Hp;
      (close_outcome; [apply error_payload_shape | refute_output]). }
  destruct (payload reply) as [e|text] eqn:Hp.
  { close_outcome; [apply error_payload_shape | refute_output]. }
  destruct (JSON_parse text) as [e|data] eqn:Hj.
  { close_outcome; [apply error_payload_shape | refute_output]. }
  destruct (get_field data "response") as [e|response] eqn:Hf.
  { close_outcome; [apply error_payload_shape | refute_output]. }
  destruct (truthy response) eqn:Ht.
  2:{ close_outcome; [apply error_payload_shape | refute_output]. }
  assert (Hnon : (forall s, response <> JString s) ->
                 NonTextOutput JSON_parse (inr reply)).
  { intros Hns. exists reply, text, data, response. auto 10. }
  assert (Htext : forall s, response = JString s ->
                  ~ NonTextOutput JSON_parse (inr reply)).
  { intros s Hs (reply' & text' & data' & response' & E1 & E2 & E3 & E4 & E5 & E6 & E7).
    apply (E7 s). congruence. }
  match goal with
  | |- context [Server.extractAndParseJson JSON_parse response ?w] =>
      destruct (extract_outcome JSON_parse response w)
        as (o & entries & -> & _ & Hreturned)
  end.
  run_relay.
  assert (Hcatch : forall logs : list LogEntry,
    exists o' w',
      (match response with
       | JString s =>
           (Ret tt,
            {| Server.console := logs; Server.fetched := [ollama_request prompt];
               Server.statusCode := 200;
               Server.sent := Some (Server.mkResponse 200
                                      (Server.generation_error (substring s 0 1000)));
               Server.rawResponseText := response |})
       | _ =>
           (Throw (TypeError "substring"),
            {| Server.console := logs; Server.fetched := [ollama_request prompt];
               Server.statusCode := 200; Server.sent := None;
               Server.rawResponseText := response |})
       end) = (o', w')
      /\ Server.fetched w' = [ollama_request prompt]
      /\ match o' with
         | Ret _ =>
             (exists content,
                 Server.sent w' = Some (Server.mkResponse 200 content)
                 /\ BundleOrError content)
             /\ ~ NonTextOutput JSON_parse (inr reply)
         | Throw e =>
             Server.sent w' = None /\ e = TypeError "substring"
             /\ NonTextOutput JSON_parse (inr reply)
         end).
  { intros logs.
    destruct response as [| |bv|x|s|xs|props]; try discriminate Ht;
      try (eexists; eexists; split; [reflexivity|]; split; [reflexivity|];
           split; [reflexivity|]; split; [reflexivity|];
           apply Hnon; intros s; discriminate).
    eexists; eexists. split; [reflexivity|]. split; [reflexivity|].
    split; [eexists; split; [reflexivity | apply error_payload_shape]|].
    apply (Htext s). reflexivity. }
  destruct o as [parsed|e].
  2:{ destruct response; apply Hcatch. }
  destruct (truthy parsed) eqn:Htp.
  2:{ destruct response; apply Hcatch. }
  destruct (get_field parsed "html") as [e|h] eqn:Hh; [destruct response; apply Hcatch|].
  destruct (get_field parsed "css") as [e|c] eqn:Hc; [destruct response; apply Hcatch|].
  destruct (get_field parsed "js") as [e|j] eqn:Hjs; [destruct response; apply Hcatch|].
  destruct (Server.valid_bundle h c j) eqn:Hv.
  2:{ destruct response; apply Hcatch. }
  eexists; eexists. split; [reflexivity|]. split; [reflexivity|]. split.
  - eexists. split; [reflexivity|]. left. apply accepted_iff_Bundle.
    split; [exact Htp|]. exists h, c, j. auto.
  - destruct Hreturned as [s Hs]. exact (Htext s Hs).
Qed.

(** X4.  The one way an exception leaves the generation procedure: the
    backend's [response] field is truthy but not text.  Then line 131 throws
    on it, the [catch] block throws again at [rawResponseText.substring]
    (line 149), and nothing is written; with any other backend behaviour the
    procedure returns. *)
Theorem generation_escapes_iff_nontext_output prompt :
  (NonTextOutput JSON_parse (network (ollama_request prompt)) ->
   exists w',
     processGenerativeRequest prompt Server.fresh = (Throw (TypeError "substring"), w')
     /\ Server.sent w' = None)
  /\ (forall e w',
        processGenerativeRequest prompt Server.fresh = (Throw e, w') ->
        NonTextOutput JSON_parse (network (ollama_request prompt))).
Proof.
  destruct (generation_outcome prompt) as (o & w' & Hrun & _ & Ho).
  destruct o as [u|e]; split.
  - intros Hn. destruct Ho as [_ Hnot]. contradiction.
  - intros e w0 Hthrow. rewrite Hrun in Hthrow. discriminate.
  - intros _. destruct Ho as (Hsent & -> & _). exists w'. auto.
  - intros e0 w0 _. apply Ho.
Qed.

(** X5.  Whatever the backend does, the procedure calls it exactly once,
    and when it returns it has written status 200 with either a bundle or
    the generation-error payload, whose snippet has at most 1000 code
    units: a parsed object that is not a bundle is never passed on. *)
Theorem generation_response_shape prompt :
  exists o w',
    processGenerativeRequest prompt Server.fresh = (o, w')
    /\ Server.fetched w' = [ollama_request prompt]
    /\ (forall u, o = Ret u ->
        exists content,
          Server.sent w' = Some (Server.mkResponse 200 content)
          /\ BundleOrError content)
    /\ (forall e, o = Throw e -> Server.sent w' = None).
Proof.
  destruct (generation_outcome prompt) as (o & w' & Hrun & Hf & Ho).
  exists o, w'. split; [exact Hrun|]. split; [exact Hf|].
  destruct o as [u|e]; split.
  - intros _ _. apply Ho.
  - intros e He. discriminate.
  - intros u Hu. discriminate.
  - intros _ _. apply Ho.
Qed.

End OutcomeProperties.

(** ** Outcomes of the handlers *)

Section HandlerProperties.

Variable JSON_parse : jsstring -> Exn + JSValue.
Variable JSON_stringify : JSValue -> option jsstring.
Variable Number_toString : float -> jsstring.
Variable network : FetchRequest -> Exn + HttpReply.
Variable env_OLLAMA_MODEL : option jsstring.

#[local] Abbreviation processGenerativeRequest :=
  (Server.processGenerativeRequest JSON_parse JSON_stringify network env_OLLAMA_MODEL).
#[local] Abbreviation ollama_request :=
  (Server.ollama_request JSON_stringify env_OLLAMA_MODEL).
#[local] Abbreviation handler :=
  (Server.handler JSON_parse JSON_stringify Number_toString network env_OLLAMA_MODEL).
#[local] Abbreviation Validated := (Validated JSON_stringify Number_toString).

(** A request is refused, or validated, or makes its handler throw before
    anything is logged, written or sent. *)
Lemma request_cases route body :
  (route = Server.Generate /\ BlankOrFalsy body)
  \/ (exists message, Rejected route body message)
  \/ (exists instruction, Validated route body instruction)
  \/ (exists e, handler route body Server.fresh = (Throw e, Server.fresh)).
Proof.
  destruct route.
  - destruct (prompt_cases (get_field_opt body "prompt"))
      as [Hf | [(s & Hs & Hws) | [(s & Hs & Hws) | [Ht Hns]]]].
    + left. split; [reflexivity | left; exact Hf].
    + left. split; [reflexivity | right; exists s; auto].
    + right. right. left. exists s. apply ValidGenerate; assumption.
    + right. right. right. eexists.
      apply (generate_throws JSON_parse JSON_stringify network env_OLLAMA_MODEL);
        assumption.
  - destruct (get_field body "prompt") as [e|p] eqn:Hp.
    { right. right. right. exists e.
      cbv [Server.handler Server.post_followup bind lift_result throw].
      rewrite Hp. reflexivity. }
    destruct (get_field body "code") as [e|c] eqn:Hc.
    { right. right. right. exists e.
      cbv [Server.handler Server.post_followup bind lift_result throw ret].
      rewrite Hp, Hc. reflexivity. }
    destruct (truthy p) eqn:Htp.
    2:{ right. left. eexists. apply (RejectFollowup body p c); auto. }
    destruct (truthy c) eqn:Htc.
    2:{ right. left. eexists. apply (RejectFollowup body p c); auto. }
    destruct (ToString Number_toString p) as [e|ps] eqn:Hs.
    { right. right. right. exists e.
      cbv [Server.handler Server.post_followup bind lift_result throw ret].
      rewrite Hp, Hc, Htp, Htc, Hs. reflexivity. }
    right. right. left. eexists.
    apply (ValidFollowup JSON_stringify Number_toString body p c ps); assumption.
  - destruct (get_field body "originalPrompt") as [e|o] eqn:Ho.
    { right. right. right. exists e.
      cbv [Server.handler Server.post_retry bind lift_result throw].
      rewrite Ho. reflexivity. }
    destruct (get_field body "badJson") as [e|b] eqn:Hb.
    { right. right. right. exists e.
      cbv [Server.handler Server.post_retry bind lift_result throw ret].
      rewrite Ho, Hb. reflexivity. }
    destruct (truthy o) eqn:Hto.
    2:{ right. left. eexists. apply (RejectRetry body o b); auto. }
    destruct (truthy b) eqn:Htb.
    2:{ right. left. eexists. apply (RejectRetry body o b); auto. }
    destruct (call_slice b 0 200) as [e|sliced] eqn:Hsl.
    { right. right. right. exists e.
      cbv [Server.handler Server.post_retry bind lift_result throw ret].
      rewrite Ho, Hb, Hto, Htb, Hsl. reflexivity. }
    destruct (ToString Number_toString sliced) as [e|snippet] eqn:Hsn.
    { right. right. right. exists e.
      cbv [Server.handler Server.post_retry bind lift_result throw ret].
      rewrite Ho, Hb, Hto, Htb, Hsl, Hsn. reflexivity. }
    destruct (ToString Number_toString o) as [e|os] eqn:Hos.
    { right. right. right. exists e.
      cbv [Server.handler Server.post_retry bind lift_result throw ret].
      rewrite Ho, Hb, Hto, Htb, Hsl, Hsn, Hos. reflexivity. }
    right. right. left. eexists.
    apply (ValidRetry JSON_stringify Number_toString body o b sliced snippet os);
      assumption.
Qed.

(** What a handler does in each case. *)
Lemma handler_cases route body :
  (exists message, handler route body Server.fresh = (Ret tt, refused message))
  \/ (exists instruction,
        handler route body Server.fresh
        = processGenerativeRequest (JString instruction) Server.fresh)
  \/ (exists e, handler route body Server.fresh = (Throw e, Server.fresh)).
Proof.
  destruct (request_cases route body)
    as [[-> HB] | [[message Hr] | [[instruction Hv] | Hthrow]]].
  - left. eexists.
    apply (generate_refuses JSON_parse JSON_stringify network env_OLLAMA_MODEL).
    exact HB.
  - left. exists message.
    apply (rejected_run JSON_parse JSON_stringify Number_toString network
             env_OLLAMA_MODEL). exact Hr.
  - right. left. exists instruction.
    apply (validated_delegates JSON_parse JSON_stringify Number_toString network
             env_OLLAMA_MODEL). exact Hv.
  - right. right. exact Hthrow.
Qed.

(** X6.  Whatever the route and the body: the handler calls the backend at
    most once; a response, if one is written, is a 400 written before any
    backend call or a 200 written after exactly one and carrying a bundle
    or the error payload (never another status); and the handler returns
    normally exactly when it has written a response. *)
Theorem handler_status_and_calls route body :
  exists o w',
    handler route body Server.fresh = (o, w')
    /\ (List.length (Server.fetched w') <= 1)%nat
    /\ (forall r,
          Server.sent w' = Some r ->
          (Server.code r = 400%N /\ Server.fetched w' = [])
          \/ (Server.code r = 200%N /\ List.length (Server.fetched w') = 1%nat
              /\ BundleOrError (Server.content r)))
    /\ ((exists u, o = Ret u) <-> Server.sent w' <> None).
Proof.
  destruct (handler_cases route body) as [[message ->] | [[instruction ->] | [e ->]]].
  - eexists; eexists. split; [reflexivity|]. split; [simpl; lia|]. split.
    + intros r Hr. injection Hr as <-. left. split; reflexivity.
    + split; [intros _; discriminate | intros _; eexists; reflexivity].
  - destruct (generation_outcome JSON_parse JSON_stringify network env_OLLAMA_MODEL
                (JString instruction)) as (o & w' & Hrun & Hf & Ho).
    exists o, w'. split; [exact Hrun|]. split; [rewrite Hf; simpl; lia|].
    destruct o as [u|e].
    + destruct Ho as [(content & Hsent & Hshape) _]. split.
      * intros r Hr. rewrite Hsent in Hr. injection Hr as <-. right.
        rewrite Hf. repeat split. exact Hshape.
      * split; [intros _; rewrite Hsent; discriminate | intros _; eexists; reflexivity].
    + destruct Ho as (Hsent & _ & _). split.
      * intros r Hr. rewrite Hsent in Hr. discriminate.
      * split; [intros [u Hu]; discriminate | intros Hn; contradiction].
  - eexists; eexists. split; [reflexivity|]. split; [simpl; lia|]. split.
    + intros r Hr. discriminate.
    + split; [intros [u Hu]; discriminate | intros Hn; exfalso; apply Hn; reflexivity].
Qed.

(** A request with text fields is refused or validated. *)
Lemma text_request_cases route body :
  TextRequest route body ->
  (route = Server.Generate /\ BlankOrFalsy body)
  \/ (exists message, Rejected route body message)
  \/ (exists instruction, Validated route body instruction).
Proof.
  assert (Htext : forall v, text_or_absent v -> truthy v = true ->
                            exists s, v = JString s /\ s <> []).
  { intros v [-> | [s ->]] Ht; [discriminate|].
    exists s. split; [reflexivity|]. destruct s; [discriminate | discriminate]. }
  intros H. destruct H as [body Hp | body Hu Hn Htp | body Hu Hn Hto Htb].
  - destruct Hp as [Hu | [s Hs]].
    + left. split; [reflexivity|]. left. rewrite Hu. reflexivity.
    + destruct (whitespace_only_decidable s) as [Hws|Hws].
      * left. split; [reflexivity|]. right. exists s. auto.
      * right. right. exists s. apply ValidGenerate; assumption.
  - pose proof (get_field_present body "prompt" Hu Hn) as Hp.
    pose proof (get_field_present body "code" Hu Hn) as Hc.
    destruct (truthy (get_field_opt body "prompt")) eqn:Ht.
    2:{ right. left. eexists. apply (RejectFollowup body _ _ Hp Hc); auto. }
    destruct (truthy (get_field_opt body "code")) eqn:Htc.
    2:{ right. left. eexists. apply (RejectFollowup body _ _ Hp Hc); auto. }
    destruct (Htext _ Htp Ht) as (s & Es & Hs).
    right. right. eexists. rewrite Es in Hp.
    exact (followup_text_validated JSON_stringify Number_toString body s _
             Hp Hs Hc Htc).
  - pose proof (get_field_present body "originalPrompt" Hu Hn) as Ho.
    pose proof (get_field_present body "badJson" Hu Hn) as Hb.
    destruct (truthy (get_field_opt body "originalPrompt")) eqn:Ht.
    2:{ right. left. eexists. apply (RejectRetry body _ _ Ho Hb); auto. }
    destruct (truthy (get_field_opt body "badJson")) eqn:Htb'.
    2:{ right. left. eexists. apply (RejectRetry body _ _ Ho Hb); auto. }
    destruct (Htext _ Hto Ht) as (so & Eo & Hso).
    destruct (Htext _ Htb Htb') as (sb & Eb & Hsb).
    right. right. eexists. rewrite Eo in Ho. rewrite Eb in Hb.
    exact (retry_strings_validated JSON_stringify Number_toString body so sb
             Ho Hso Hb Hsb).
Qed.

(** X7.  When the request has a body (for /followup and /retry, whose
    handlers destructure it: [req.body] is neither [undefined] nor [null]),
    every text field of it is absent or text, and the backend's output
    field, if truthy, is text, no exception leaves the handler: it returns
    having written a 400 or a 200. *)
Theorem text_request_always_answered route req_body :
  (route = Server.Generate \/ (req_body <> JUndefined /\ req_body <> JNull)) ->
  match route with
  | Server.Generate => text_or_absent (get_field_opt req_body "prompt")
  | Server.Followup => text_or_absent (get_field_opt req_body "prompt")
  | Server.Retry =>
      text_or_absent (get_field_opt req_body "originalPrompt")
      /\ text_or_absent (get_field_opt req_body "badJson")
  end ->
  (forall req, ~ NonTextOutput JSON_parse (network req)) ->
  exists w' r,
    handler route req_body Server.fresh = (Ret tt, w')
    /\ Server.sent w' = Some r
    /\ (Server.code r = 400%N \/ Server.code r = 200%N).
Proof.
  intros Hbody Hfields Hbackend.
  assert (Htext : TextRequest route req_body).
  { destruct route.
    - apply TextGenerate. exact Hfields.
    - destruct Hbody as [E | [Hu Hn]]; [discriminate|].
      apply TextFollowup; assumption.
    - destruct Hbody as [E | [Hu Hn]]; [discriminate|].
      destruct Hfields as [Ho Hb]. apply TextRetry; assumption. }
  assert (Hcases : (exists message,
                       handler route req_body Server.fresh = (Ret tt, refused message))
                   \/ exists instruction,
                       handler route req_body Server.fresh
                       = processGenerativeRequest (JString instruction) Server.fresh).
  { destruct (text_request_cases route req_body Htext)
      as [[-> HB] | [[message Hr] | [instruction Hv]]].
    - left. eexists.
      apply (generate_refuses JSON_parse JSON_stringify network env_OLLAMA_MODEL).
      exact HB.
    - left. exists message.
      apply (rejected_run JSON_parse JSON_stringify Number_toString network
               env_OLLAMA_MODEL). exact Hr.
    - right. exists instruction.
      apply (validated_delegates JSON_parse JSON_stringify Number_toString network
               env_OLLAMA_MODEL). exact Hv. }
  destruct Hcases as [[message ->] | [instruction ->]].
  - eexists; eexists. split; [reflexivity|]. split; [reflexivity|]. left. reflexivity.
  - destruct (generation_outcome JSON_parse JSON_stringify network env_OLLAMA_MODEL
                (JString instruction)) as (o & w' & Hrun & _ & Ho).
    destruct o as [[]|e].
    + destruct Ho as [(content & Hsent & _) _].
      exists w'. eexists. split; [exact Hrun|]. split; [exact Hsent|]. right. reflexivity.
    + destruct Ho as (_ & _ & Hn). destruct (Hbackend _ Hn).
Qed.

(** [process.env.OLLAMA_MODEL || 'codellama']: an unset or empty variable
    gives the default. *)
Lemma model_name_cases :
  model_name env_OLLAMA_MODEL <> []
  /\ (forall m, env_OLLAMA_MODEL = Some m -> m <> [] ->
                model_name env_OLLAMA_MODEL = m)
  /\ (env_OLLAMA_MODEL = None \/ env_OLLAMA_MODEL = Some [] ->
      model_name env_OLLAMA_MODEL = lit "codellama").
Proof.
  unfold model_name.
  destruct env_OLLAMA_MODEL as [[|c m]|]; repeat split; try discriminate.
  - intros m Hm Hn. injection Hm as <-. contradiction.
  - intros m' Hm _. injection Hm as <-. reflexivity.
  - intros [H | H]; discriminate.
Qed.

(** X10.  Whatever a request carries, what reaches the backend is a POST to
    the fixed URL whose body is the serialisation of a payload whose
    [prompt] is text, namely the instruction the route's validation builds
    from the request, whose [system] is the base system prompt, and whose
    [model] is a non-empty name: the environment's, or ['codellama'] when
    the variable is unset or empty. *)
Theorem backend_call_carries_text route req_body :
  exists o w',
    handler route req_body Server.fresh = (o, w')
    /\ forall req,
        In req (Server.fetched w') ->
        exists instruction model payload,
          Validated route req_body instruction
          /\ url req = lit "http://localhost:11434/api/generate"
          /\ method req = "POST"%string
          /\ headers req = [("Content-Type"%string, "application/json"%string)]
          /\ body req = JSON_stringify payload
          /\ get_field payload "prompt" = inr (JString instruction)
          /\ get_field payload "system" = inr (JString Server.BASE_SYSTEM_PROMPT)
          /\ get_field payload "model" = inr (JString model)
          /\ model <> []
          /\ (forall m, env_OLLAMA_MODEL = Some m -> m <> [] -> model = m)
          /\ (env_OLLAMA_MODEL = None \/ env_OLLAMA_MODEL = Some [] ->
              model = lit "codellama").
Proof.
  destruct model_name_cases as (Hne & Henv & Hdefault).
  destruct (request_cases route req_body)
    as [[-> HB] | [[message Hr] | [[instruction Hv] | [e ->]]]].
  - eexists; eexists. split.
    + apply (generate_refuses JSON_parse JSON_stringify network env_OLLAMA_MODEL).
      exact HB.
    + intros req [].
  - eexists; eexists. split.
    + apply (rejected_run JSON_parse JSON_stringify Number_toString network
               env_OLLAMA_MODEL). exact Hr.
    + intros req [].
  - destruct (validated_run JSON_parse JSON_stringify Number_toString network
                env_OLLAMA_MODEL route req_body instruction Hv)
      as (o & w' & Hrun & _ & Hf).
    exists o, w'. split; [exact Hrun|]. rewrite Hf. intros req [<- | []].
    exists instruction, (model_name env_OLLAMA_MODEL),
      (backend_payload (model_name env_OLLAMA_MODEL) instruction).
    repeat split; assumption.
  - eexists; eexists. split; [reflexivity|]. intros req [].
Qed.

End HandlerProperties.

(** ** The stage at which a generation fails *)

Lemma backend_cases parse out :
  EarlyFailure parse out
  \/ (exists raw, Output parse out raw)
  \/ NonTextOutput parse out.
Proof.
  destruct out as [e|reply]; [left; apply Unreachable|].
  destruct (ok reply) eqn:Hok; [|left; apply BadStatus; exact Hok].
  destruct (payload reply) as [e|text] eqn:Hp;
    [left; apply (UnreadableBody parse reply e); assumption|].
  destruct (parse text) as [e|data] eqn:Hj;
    [left; apply (UnparsableBody parse reply text e); assumption|].
  destruct (get_field data "response") as [e|response] eqn:Hf;
    [left; apply (NullBody parse reply text data e); assumption|].
  destruct (truthy response) eqn:Ht;
    [|left; apply (MissingOutput parse reply text data response); assumption].
  destruct response as [| |bv|x|s|xs|props];
    try (right; right; exists reply, text, data; eexists;
         repeat split; try eassumption; try reflexivity; intros s0; discriminate).
  right. left. exists s, reply, text, data. repeat split; try assumption.
  intros ->. discriminate.
Qed.

Section FailureStages.

Variable JSON_parse : jsstring -> Exn + JSValue.
Variable JSON_stringify : JSValue -> option jsstring.
Variable Number_toString : float -> jsstring.
Variable network : FetchRequest -> Exn + HttpReply.
Variable env_OLLAMA_MODEL : option jsstring.

#[local] Abbreviation handler :=
  (Server.handler JSON_parse JSON_stringify Number_toString network env_OLLAMA_MODEL).
#[local] Abbreviation Validated := (Validated JSON_stringify Number_toString).
#[local] Abbreviation call_for :=
  (backend_call JSON_stringify (model_name env_OLLAMA_MODEL)).

(** C10.  When the generation fails before the backend's output text is
    obtained (backend unreachable, non-success status, reply without a
    usable [response] field) the [rawResponse] field of the payload is the
    empty string; when it fails after the output [raw] has been read,
    [rawResponse] is the non-empty prefix of [raw] of at most 1000 code
    units, all of [raw] when it has no more; and a response whose
    [rawResponse] is a non-empty string is written only after the output
    has been read. *)
Theorem raw_response_by_stage route req_body instruction :
  Validated route req_body instruction ->
  (EarlyFailure JSON_parse (network (call_for instruction)) ->
   exists w' payload,
     handler route req_body Server.fresh = (Ret tt, w')
     /\ Server.sent w' = Some (Server.mkResponse 200 payload)
     /\ get_field payload "errorType" = inr (JString (lit "GENERATION_ERROR"))
     /\ get_field payload "rawResponse" = inr (JString []))
  /\ (forall raw,
        Output JSON_parse (network (call_for instruction)) raw ->
        ExtractionFails JSON_parse raw
        \/ (exists parsed, Extracts JSON_parse raw parsed /\ ~ Bundle parsed) ->
        exists w' payload,
          handler route req_body Server.fresh = (Ret tt, w')
          /\ Server.sent w' = Some (Server.mkResponse 200 payload)
          /\ get_field payload "errorType" = inr (JString (lit "GENERATION_ERROR"))
          /\ get_field payload "rawResponse" = inr (JString (firstn 1000 raw))
          /\ firstn 1000 raw <> []
          /\ (List.length (firstn 1000 raw) <= 1000)%nat
          /\ ((List.length raw <= 1000)%nat -> firstn 1000 raw = raw))
  /\ (forall w' payload snippet,
        handler route req_body Server.fresh = (Ret tt, w') ->
        Server.sent w' = Some (Server.mkResponse 200 payload) ->
        get_field payload "rawResponse" = inr (JString snippet) ->
        snippet <> [] ->
        exists raw, Output JSON_parse (network (call_for instruction)) raw).
Proof.
  intros Hv.
  rewrite <- (ollama_request_backend_call JSON_stringify env_OLLAMA_MODEL).
  rewrite (validated_delegates JSON_parse JSON_stringify Number_toString network
             env_OLLAMA_MODEL _ _ _ _ Hv).
  split; [|split].
  - intros He.
    destruct (generation_fails_run JSON_parse JSON_stringify network env_OLLAMA_MODEL
                (JString instruction) []
                (or_introl (conj He eq_refl))) as (w' & Hrun & Hsent & _).
    exists w', (Server.generation_error []). auto.
  - intros raw Hout Hlate.
    destruct (generation_fails_run JSON_parse JSON_stringify network env_OLLAMA_MODEL
                (JString instruction) raw
                (or_intror (conj Hout Hlate))) as (w' & Hrun & Hsent & _).
    exists w', (Server.generation_error (firstn 1000 raw)).
    split; [exact Hrun|]. split; [exact Hsent|].
    split; [reflexivity|]. split; [reflexivity|]. split; [|split].
    + destruct Hout as (_ & _ & _ & _ & _ & _ & _ & _ & Hraw).
      destruct raw; [contradiction|]. discriminate.
    + apply firstn_le_length.
    + intros Hle. apply firstn_all2. exact Hle.
  - intros w' payload snippet Hrun Hsent Hfield Hne.
    destruct (backend_cases JSON_parse
                (network (Server.ollama_request JSON_stringify env_OLLAMA_MODEL
                            (JString instruction))))
      as [He | [Hout | Hnon]].
    + destruct (generation_fails_run JSON_parse JSON_stringify network
                  env_OLLAMA_MODEL (JString instruction) []
                  (or_introl (conj He eq_refl))) as (w0 & Hrun0 & Hsent0 & _).
      rewrite Hrun in Hrun0. injection Hrun0 as <-.
      rewrite Hsent in Hsent0. injection Hsent0 as ->.
      injection Hfield as <-. destruct (Hne eq_refl).
    + exact Hout.
    + destruct (generation_outcome JSON_parse JSON_stringify network env_OLLAMA_MODEL
                  (JString instruction)) as (o & w0 & Hrun0 & _ & Ho).
      rewrite Hrun in Hrun0. injection Hrun0 as <- <-.
      destruct Ho as [_ Hnot]. destruct (Hnot Hnon).
Qed.

End FailureStages.

(** ** Outcomes of the client helper *)

Section ClientOutcomes.

Variable JSON_parse : jsstring -> Exn + JSValue.
Variable JSON_stringify : JSValue -> option jsstring.
Variable Number_toString : float -> jsstring.
Variable network : FetchRequest -> Exn + HttpReply.
Variable VITE_PUBLIC_SERVER_URL : option jsstring.

#[local] Abbreviation invoke :=
  (Client.invoke JSON_parse JSON_stringify Number_toString network
     VITE_PUBLIC_SERVER_URL).
#[local] Abbreviation sendRequest :=
  (Client.sendRequest JSON_parse JSON_stringify Number_toString network
     VITE_PUBLIC_SERVER_URL).
#[local] Abbreviation request_of := (call_request JSON_stringify VITE_PUBLIC_SERVER_URL).
#[local] Abbreviation api_request :=
  (fun endpoint args =>
     Client.api_request JSON_stringify endpoint args (base_url VITE_PUBLIC_SERVER_URL)).

Lemma invoke_sendRequest c :
  invoke c = sendRequest (call_endpoint c) (call_arguments c).
Proof. destruct c; reflexivity. Qed.

(** A reply with a success status: the body is parsed outside the [try]
    block (line 17 returns the promise without [await]). *)
Lemma sendRequest_success endpoint args reply text :
  network (api_request endpoint args) = inr reply ->
  ok reply = true -> payload reply = inr text ->
  sendRequest endpoint args Client.fresh
  = (match JSON_parse text with inr v => Ret v | inl e => Throw e end,
     {| Client.console := []; Client.fetched := [api_request endpoint args] |}).
Proof.
  intros Hnet Hok Hp. run_client.
  rewrite (base_url_string Number_toString VITE_PUBLIC_SERVER_URL).
  rewrite Hnet, Hok. cbv beta iota. rewrite Hp.
  destruct (JSON_parse text); reflexivity.
Qed.

(** A reply with a non-success status whose body does not parse: the parse
    error is thrown inside the [try] block (line 14). *)
Lemma sendRequest_unparsable_error endpoint args reply text e :
  network (api_request endpoint args) = inr reply ->
  ok reply = false -> payload reply = inr text -> JSON_parse text = inl e ->
  sendRequest endpoint args Client.fresh
  = (Throw e,
     {| Client.console := [log_error endpoint e];
        Client.fetched := [api_request endpoint args] |}).
Proof.
  intros Hnet Hok Hp Hj. run_client.
  rewrite (base_url_string Number_toString VITE_PUBLIC_SERVER_URL).
  rewrite Hnet, Hok. cbv beta iota. rewrite Hp, Hj. reflexivity.
Qed.

(** X8.  How the helper treats the body of a reply.  With a success status
    the parsed body is the result, and a body that does not parse makes the
    helper throw the parse error without logging it: the promise of line 17
    is returned without [await], so the [catch] block never sees it.  With a
    non-success status a body that does not parse throws the parse error
    too, but that one is logged first. *)
Theorem client_reply_parsing c reply text :
  network (request_of c) = inr reply -> payload reply = inr text ->
  (ok reply = true ->
   invoke c Client.fresh
   = (match JSON_parse text with inr v => Ret v | inl e => Throw e end,
      {| Client.console := []; Client.fetched := [request_of c] |}))
  /\ (ok reply = false ->
      forall e, JSON_parse text = inl e ->
      invoke c Client.fresh
      = (Throw e,
         {| Client.console := [log_error (call_endpoint c) e];
            Client.fetched := [request_of c] |})).
Proof.
  intros Hnet Hp. rewrite invoke_sendRequest. split.
  - intros Hok. apply (sendRequest_success _ _ reply text); assumption.
  - intros Hok e Hj.
    apply (sendRequest_unparsable_error _ _ reply text e); assumption.
Qed.

(** X9.  The helper returns a value only for a reply with a success status
    whose body parses to that value, and then it has logged nothing; every
    other outcome is a throw.  In particular a 200 reply carrying the
    relay's generation-error payload is returned, not thrown. *)
Theorem client_returns_only_parsed_success c :
  exists o w',
    invoke c Client.fresh = (o, w')
    /\ (forall v,
          o = Ret v ->
          Client.console w' = []
          /\ exists reply text,
              network (request_of c) = inr reply /\ ok reply = true
              /\ payload reply = inr text /\ JSON_parse text = inr v).
Proof.
  rewrite invoke_sendRequest. unfold call_request.
  generalize (call_endpoint c) (call_arguments c). intros endpoint args.
  destruct (network (api_request endpoint args)) as [e|reply] eqn:Hnet.
  { run_client. rewrite (base_url_string Number_toString VITE_PUBLIC_SERVER_URL).
    rewrite Hnet. eexists; eexists. split; [reflexivity|]. intros v Hv. discriminate. }
  destruct (ok reply) eqn:Hok.
  - destruct (payload reply) as [e|text] eqn:Hp.
    + run_client. rewrite (base_url_string Number_toString VITE_PUBLIC_SERVER_URL).
      rewrite Hnet, Hok. cbv beta iota. rewrite Hp.
      eexists; eexists. split; [reflexivity|]. intros v Hv. discriminate.
    + rewrite (sendRequest_success endpoint args reply text Hnet Hok Hp).
      eexists; eexists. split; [reflexivity|]. intros v Hv.
      split; [reflexivity|]. exists reply, text.
      destruct (JSON_parse text) as [e|v'] eqn:Hj; [discriminate|].
      injection Hv as ->. auto.
  - run_client. rewrite (base_url_string Number_toString VITE_PUBLIC_SERVER_URL).
    rewrite Hnet, Hok. cbv beta iota.
    destruct (payload reply) as [e1|text1]; [|destruct (JSON_parse text1) as [e2|data]];
      [| |destruct (get_field data "error") as [e3|supplied];
          [|destruct (ToString Number_toString
                        (js_or supplied (JString (lit "API request failed"))))]];
      (eexists; eexists; split; [reflexivity|]; intros v Hv; discriminate).
Qed.

End ClientOutcomes.

(** ** Further worked examples *)

Lemma extraction_ignores_chatter_witness :
  fst (Server.extractAndParseJson Fragment.parse
         (JString (lit "Here you go: "
                   ++ (lbrace :: (dquote ++ lit "a" ++ dquote ++ lit ":true") ++ [rbrace])
                   ++ lit " -- enjoy"))
         Server.fresh)
  = fst (Server.extractAndParseJson Fragment.parse
           (JString (lbrace :: (dquote ++ lit "a" ++ dquote ++ lit ":true") ++ [rbrace]))
           Server.fresh).
Proof.
  apply (extraction_ignores_chatter Fragment.parse (lit "Here you go: ")
           (dquote ++ lit "a" ++ dquote ++ lit ":true") (lit " -- enjoy")
           Server.fresh Server.fresh).
  - vm_compute. intuition discriminate.
  - vm_compute. intuition discriminate.
Defined.

Lemma numeric_backend_nontext req :
  NonTextOutput Fragment.parse (Sample.numeric_backend req).
Proof.
  eexists. eexists. eexists. exists (JNumber 5).
  split; [reflexivity|]. split; [reflexivity|]. split; [reflexivity|].
  split; [vm_compute; reflexivity|]. split; [reflexivity|].
  split; [reflexivity|]. intros s. discriminate.
Qed.

Lemma generation_escapes_iff_nontext_output_witness :
  exists w',
    Server.processGenerativeRequest Fragment.parse Sample.stringify Sample.numeric_backend
      None (JString (lit "a page")) Server.fresh
    = (Throw (TypeError "substring"), w')
    /\ Server.sent w' = None.
Proof.
  exact (proj1 (generation_escapes_iff_nontext_output Fragment.parse Sample.stringify
                  Sample.numeric_backend None (JString (lit "a page")))
               (numeric_backend_nontext _)).
Defined.

Lemma footer_request_text :
  text_or_absent (get_field_opt Sample.footer_request "prompt").
Proof. right. eexists. reflexivity. Qed.

Lemma fenced_backend_text req :
  ~ NonTextOutput Fragment.parse (Sample.fenced_backend req).
Proof.
  intros (reply & text & data & response & E1 & _ & E3 & E4 & E5 & _ & E7).
  injection E1 as <-. injection E3 as <-.
  vm_compute in E4. injection E4 as <-.
  vm_compute in E5. injection E5 as <-.
  exact (E7 _ eq_refl).
Qed.

Lemma text_request_always_answered_witness :
  exists w' r,
    Server.handler Fragment.parse Sample.stringify Sample.number_toString
      Sample.fenced_backend None Server.Followup Sample.footer_request Server.fresh
    = (Ret tt, w')
    /\ Server.sent w' = Some r
    /\ (Server.code r = 400%N \/ Server.code r = 200%N).
Proof.
  refine (text_request_always_answered Fragment.parse Sample.stringify
            Sample.number_toString Sample.fenced_backend None
            Server.Followup Sample.footer_request
            (or_intror (conj _ _)) footer_request_text fenced_backend_text);
    discriminate.
Defined.

Lemma unreachable_early req :
  EarlyFailure Fragment.parse (Sample.unreachable req).
Proof. apply Unreachable. Qed.

Lemma fenced_backend_output_call model instruction :
  Output Fragment.parse
    (Sample.fenced_backend (backend_call Sample.stringify model instruction))
    Sample.fenced_reply.
Proof.
  eexists. eexists. eexists. split; [reflexivity|].
  split; [reflexivity|]. split; [reflexivity|].
  split; [vm_compute; reflexivity|]. split; [reflexivity|]. discriminate.
Qed.

Lemma raw_response_by_stage_witness :
  (exists w' payload,
      Server.handler Fragment.parse Sample.stringify Sample.number_toString
        Sample.unreachable None Server.Generate Sample.page_request Server.fresh
      = (Ret tt, w')
      /\ Server.sent w' = Some (Server.mkResponse 200 payload)
      /\ get_field payload "errorType" = inr (JString (lit "GENERATION_ERROR"))
      /\ get_field payload "rawResponse" = inr (JString []))
  /\ (exists w' payload,
        Server.handler Fragment.parse Sample.stringify Sample.number_toString
          Sample.fenced_backend None Server.Generate Sample.page_request Server.fresh
        = (Ret tt, w')
        /\ Server.sent w' = Some (Server.mkResponse 200 payload)
        /\ get_field payload "errorType" = inr (JString (lit "GENERATION_ERROR"))
        /\ get_field payload "rawResponse"
           = inr (JString (firstn 1000 Sample.fenced_reply))
        /\ firstn 1000 Sample.fenced_reply <> []
        /\ (List.length (firstn 1000 Sample.fenced_reply) <= 1000)%nat
        /\ ((List.length Sample.fenced_reply <= 1000)%nat ->
            firstn 1000 Sample.fenced_reply = Sample.fenced_reply)).
Proof.
  split.
  - exact (proj1 (raw_response_by_stage Fragment.parse Sample.stringify
                    Sample.number_toString Sample.unreachable None
                    Server.Generate Sample.page_request _ page_request_validated)
                 (unreachable_early _)).
  - exact (proj1 (proj2 (raw_response_by_stage Fragment.parse Sample.stringify
                           Sample.number_toString Sample.fenced_backend None
                           Server.Generate Sample.page_request _
                           page_request_validated))
                 Sample.fenced_reply (fenced_backend_output_call _ _)
                 (or_intror (ex_intro _ Sample.fenced_bundle
                               (conj fenced_reply_extracts fenced_bundle_not_Bundle)))).
Defined.

Lemma client_reply_parsing_witness :
  (ok {| status := 502; statusText := lit "Bad Gateway";
         payload := inr (lit "<html>Bad Gateway</html>") |} = true ->
   Client.invoke Fragment.parse Sample.stringify Sample.number_toString
     Sample.failing_proxy (Some (lit "http://localhost:3001"))
     (Client.CallGenerateCode (JString (lit "a page"))) Client.fresh
   = (match Fragment.parse (lit "<html>Bad Gateway</html>") with
      | inr v => Ret v
      | inl e => Throw e
      end,
      {| Client.console := [];
         Client.fetched :=
           [call_request Sample.stringify (Some (lit "http://localhost:3001"))
              (Client.CallGenerateCode (JString (lit "a page")))] |}))
  /\ (ok {| status := 502; statusText := lit "Bad Gateway";
            payload := inr (lit "<html>Bad Gateway</html>") |} = false ->
      forall e, Fragment.parse (lit "<html>Bad Gateway</html>") = inl e ->
      Client.invoke Fragment.parse Sample.stringify Sample.number_toString
        Sample.failing_proxy (Some (lit "http://localhost:3001"))
        (Client.CallGenerateCode (JString (lit "a page"))) Client.fresh
      = (Throw e,
         {| Client.console := [log_error (lit "generate") e];
            Client.fetched :=
              [call_request Sample.stringify (Some (lit "http://localhost:3001"))
                 (Client.CallGenerateCode (JString (lit "a page")))] |})).
Proof.
  exact (client_reply_parsing Fragment.parse Sample.stringify Sample.number_toString
           Sample.failing_proxy (Some (lit "http://localhost:3001"))
           (Client.CallGenerateCode (JString (lit "a page")))
           _ (lit "<html>Bad Gateway</html>") eq_refl eq_refl).
Defined.

(** The helper against the failing proxy: the parse error is logged and
    thrown. *)
Example generateCode_failing_proxy :
  Client.generateCode Fragment.parse Sample.stringify Sample.number_toString
    Sample.failing_proxy (Some (lit "http://localhost:3001"))
    (JString (lit "a page")) Client.fresh
  = (Throw Fragment.unexpected,
     {| Client.console := [log_error (lit "generate") Fragment.unexpected];
        Client.fetched :=
          [call_request Sample.stringify (Some (lit "http://localhost:3001"))
             (Client.CallGenerateCode (JString (lit "a page")))] |}).
Proof. vm_compute. reflexivity. Qed.
